(** * tgblog: the news digest and the three-step content generator of app.py

    A shallow embedding of [src/app.py].  The two outbound collaborators
    (the [requests.get] call to the news endpoint and
    [openai.ChatCompletion.create]) are oracles of a [world]; every outbound
    call is appended to a trace, so that "makes zero outbound calls" is a
    statement about the trace.  Python exceptions are the [Raise] outcome of
    a small state-and-exception monad; unlike a state transformer over an
    error monad, the trace survives a raise, as the calls already made do in
    Python. *)

From Stdlib Require Import List String Ascii ZArith NArith Bool Lia DecimalString.
From Stdlib Require Import QArith.QArith_base.
From Stdlib Require Import Floats.SpecFloat.
Import ListNotations.
Close Scope Q_scope.
Open Scope list_scope.
Local Set Warnings "-register-all".

(* ===================================================================== *)
(** ** Python strings *)
(* ===================================================================== *)

(** A Python [str] is a sequence of Unicode code points. *)
Definition str := list N.

(** Source literals are written as Rocq strings, which hold the UTF-8 bytes
    of the text; [utf8] decodes them to code points. *)
Fixpoint utf8 (bs : list N) : str :=
  match bs with
  | [] => []
  | b0 :: r0 =>
    if (b0 <? 128)%N then b0 :: utf8 r0
    else if (b0 <? 224)%N then
      match r0 with
      | b1 :: r1 => ((b0 - 192) * 64 + (b1 - 128))%N :: utf8 r1
      | [] => []
      end
    else if (b0 <? 240)%N then
      match r0 with
      | b1 :: b2 :: r2 =>
        ((b0 - 224) * 4096 + (b1 - 128) * 64 + (b2 - 128))%N :: utf8 r2
      | _ => []
      end
    else
      match r0 with
      | b1 :: b2 :: b3 :: r3 =>
        ((b0 - 240) * 262144 + (b1 - 128) * 4096 + (b2 - 128) * 64
         + (b3 - 128))%N :: utf8 r3
      | _ => []
      end
  end.

Definition U (s : string) : str :=
  utf8 (map N_of_ascii (list_ascii_of_string s)).

(** The one-character string "\n". *)
Definition NL : str := [10%N].

(** [str.isspace] on one code point (CPython's [_PyUnicode_IsWhitespace]). *)
Definition isspace (c : N) : bool :=
  ((9 <=? c) && (c <=? 13) || (28 <=? c) && (c <=? 32)
   || (c =? 133) || (c =? 160) || (c =? 5760)
   || (8192 <=? c) && (c <=? 8202)
   || (c =? 8232) || (c =? 8233) || (c =? 8239) || (c =? 8287)
   || (c =? 12288))%N.

Fixpoint lstrip (s : str) : str :=
  match s with
  | [] => []
  | c :: rest => if isspace c then lstrip rest else s
  end.

Definition rstrip (s : str) : str := rev (lstrip (rev s)).

(** [s.strip()] with no argument. *)
Definition strip (s : str) : str := rstrip (lstrip s).

(** [sep.join(xs)] on a list of strings. *)
Fixpoint join (sep : str) (xs : list str) : str :=
  match xs with
  | [] => []
  | x :: rest =>
    match rest with
    | [] => x
    | _ :: _ => x ++ sep ++ join sep rest
    end
  end.

Fixpoint str_eqb (a b : str) : bool :=
  match a, b with
  | [], [] => true
  | x :: a', y :: b' => (x =? y)%N && str_eqb a' b'
  | _, _ => false
  end.

(** [str(i)] for a non-negative index. *)
Definition str_of_nat (i : nat) : str :=
  U (NilZero.string_of_uint (Nat.to_uint i)).

(* ===================================================================== *)
(** ** Python values and exceptions *)
(* ===================================================================== *)

(** What [response.json()] can return. *)
Inductive pyval : Type :=
| PyNone
| PyBool (b : bool)
| PyInt (n : Z)
| PyFloat (f : spec_float)
| PyStr (s : str)
| PyList (l : list pyval)
| PyDict (d : list (str * pyval)).

(** An exception of a class other than [HTTPException]: its class name and
    what [str(exc)] gives. *)
Record pyerr : Type := PyErr { exc_class : string; exc_str : str }.

Inductive exn : Type :=
| HTTPException (status_code : Z) (detail : str)
| Exception (e : pyerr).

Definition type_name (v : pyval) : string :=
  match v with
  | PyNone => "NoneType"
  | PyBool _ => "bool"
  | PyInt _ => "int"
  | PyFloat _ => "float"
  | PyStr _ => "str"
  | PyList _ => "list"
  | PyDict _ => "dict"
  end.

(** Truth value of an object, as [not x] and [if x] test it. *)
Definition truthy (v : pyval) : bool :=
  match v with
  | PyNone => false
  | PyBool b => b
  | PyInt n => negb (n =? 0)%Z
  | PyFloat (S754_zero _) => false
  | PyFloat _ => true
  | PyStr s => match s with [] => false | _ :: _ => true end
  | PyList l => match l with [] => false | _ :: _ => true end
  | PyDict d => match d with [] => false | _ :: _ => true end
  end.

(** Lookup in a dict (keys of a parsed JSON object are strings). *)
Fixpoint dict_lookup (d : list (str * pyval)) (key : str) : option pyval :=
  match d with
  | [] => None
  | (k, v) :: rest => if str_eqb k key then Some v else dict_lookup rest key
  end.

Definition TypeError (m : str) : pyerr := PyErr "TypeError" m.
Definition AttributeError (m : str) : pyerr := PyErr "AttributeError" m.
Definition KeyError (m : str) : pyerr := PyErr "KeyError" m.
Definition IndexError (m : str) : pyerr := PyErr "IndexError" m.

(** [obj.get(key, default)]: only a dict has the method. *)
Definition py_get (obj : pyval) (key : str) (default : pyval)
  : pyerr + pyval :=
  match obj with
  | PyDict d =>
    inr (match dict_lookup d key with Some v => v | None => default end)
  | _ =>
    inl (AttributeError
           (U "'" ++ U (type_name obj) ++ U "' object has no attribute 'get'"))
  end.

(** The elements that iterating over [obj[:5]] yields.  For a dict the
    exception is that of CPython up to 3.11; from 3.12 on a slice is
    hashable and the lookup raises KeyError instead. *)
Definition slice5 (obj : pyval) : pyerr + list pyval :=
  match obj with
  | PyList l => inr (firstn 5 l)
  | PyStr s => inr (map (fun c => PyStr [c]) (firstn 5 s))
  | PyDict _ => inl (TypeError (U "unhashable type: 'slice'"))
  | _ =>
    inl (TypeError (U "'" ++ U (type_name obj) ++ U "' object is not subscriptable"))
  end.

(** [obj[key]] for a string key.  The text for a string is that of
    CPython up to 3.10; later versions append [, not 'str']. *)
Definition getitem (obj : pyval) (key : str) : pyerr + pyval :=
  match obj with
  | PyDict d =>
    match dict_lookup d key with
    | Some v => inr v
    | None => inl (KeyError (U "'" ++ key ++ U "'"))
    end
  | PyList _ =>
    inl (TypeError (U "list indices must be integers or slices, not str"))
  | PyStr _ => inl (TypeError (U "string indices must be integers"))
  | _ =>
    inl (TypeError (U "'" ++ U (type_name obj) ++ U "' object is not subscriptable"))
  end.

(** Running a generator to its end: the first element that raises stops it. *)
Fixpoint collect {A B : Type} (f : A -> pyerr + B) (xs : list A)
  : pyerr + list B :=
  match xs with
  | [] => inr []
  | x :: rest =>
    match f x with
    | inl e => inl e
    | inr y =>
      match collect f rest with
      | inl e => inl e
      | inr ys => inr (y :: ys)
      end
    end
  end.

(** The items of [sep.join(items)] must all be [str]. *)
Fixpoint expect_strs (i : nat) (items : list pyval) : pyerr + list str :=
  match items with
  | [] => inr []
  | PyStr s :: rest =>
    match expect_strs (S i) rest with
    | inl e => inl e
    | inr ss => inr (s :: ss)
    end
  | v :: _ =>
    inl (TypeError (U "sequence item " ++ str_of_nat i
                    ++ U ": expected str instance, " ++ U (type_name v)
                    ++ U " found"))
  end.

Definition py_join (sep : str) (items : list pyval) : pyerr + str :=
  match expect_strs 0 items with
  | inl e => inl e
  | inr ss => inr (join sep ss)
  end.

(* ===================================================================== *)
(** ** The outside world and the monad of app.py's functions *)
(* ===================================================================== *)

(** [requests.get(url, params=params)]: the arguments and the response. *)
Record news_request : Type := {
  url : str;
  params : list (str * pyval)
}.

(** [json] is what [response.json()] does: it raises when the body is not
    JSON. *)
Record Response : Type := {
  status_code : Z;
  text : str;
  json : pyerr + pyval
}.

(** One entry of [messages]. *)
Record chat_message : Type := { role : str; content : str }.

(** The keyword arguments of [openai.ChatCompletion.create]. *)
Record chat_request : Type := {
  model : str;
  messages : list chat_message;
  max_tokens : Z;
  temperature : Q;
  stop : option (list str);
  presence_penalty : option Q;
  frequency_penalty : option Q
}.

(** [choice.message.content] of one choice; [None] is Python's [None]. *)
Record chat_choice : Type := { message_content : option str }.

Record ChatCompletion : Type := { choices : list chat_choice }.

(** An outbound call with what came back: a raised exception (a network
    failure, a quota error, ...) or the response object. *)
Inductive event : Type :=
| NewsCall (req : news_request) (out : pyerr + Response)
| ChatCall (req : chat_request) (out : pyerr + ChatCompletion).

Definition trace := list event.

(** The two collaborators.  Each answer may depend on everything that
    happened before (the completion endpoint samples with temperature 0.5,
    the news change), hence on the trace so far. *)
Record world : Type := {
  requests_get : trace -> news_request -> pyerr + Response;
  ChatCompletion_create : trace -> chat_request -> pyerr + ChatCompletion
}.

Inductive outcome (A : Type) : Type :=
| Return (a : A)
| Raise (e : exn).
Arguments Return {A} a.
Arguments Raise {A} e.

Definition M (A : Type) : Type := trace -> outcome A * trace.

Definition ret {A : Type} (a : A) : M A := fun t => (Return a, t).

Definition raise {A : Type} (e : exn) : M A := fun t => (Raise e, t).

Definition bind {A B : Type} (m : M A) (k : A -> M B) : M B :=
  fun t =>
    match m t with
    | (Return a, t') => k a t'
    | (Raise e, t') => (Raise e, t')
    end.

Notation "x <- m ;; k" := (bind m (fun x => k))
  (at level 100, m at next level, right associativity).

(** A pure step that may raise. *)
Definition lift {A : Type} (r : pyerr + A) : M A :=
  match r with
  | inl e => raise (Exception e)
  | inr a => ret a
  end.

(** [try: body  except Exception as exc: handler exc]. *)
Definition try_except {A : Type} (body : M A) (handler : exn -> M A) : M A :=
  fun t =>
    match body t with
    | (Return a, t') => (Return a, t')
    | (Raise exc, t') => handler exc t'
    end.

Definition call_requests_get (w : world) (req : news_request) : M Response :=
  fun t =>
    let out := requests_get w t req in
    (match out with
     | inl e => Raise (Exception e)
     | inr response => Return response
     end, t ++ [NewsCall req out]).

Definition call_ChatCompletion_create (w : world) (req : chat_request)
  : M ChatCompletion :=
  fun t =>
    let out := ChatCompletion_create w t req in
    (match out with
     | inl e => Raise (Exception e)
     | inr completion => Return completion
     end, t ++ [ChatCall req out]).

(** [f"{exc}"].  Starlette's [HTTPException.__str__] gives
    ["{status_code}: {detail}"]; no [HTTPException] reaches the handler of
    [generate_content] (lemma [try_body_raises_no_HTTPException]). *)
Definition format_exc (exc : exn) : str :=
  match exc with
  | HTTPException code detail =>
    U (NilZero.string_of_int (Z.to_int code)) ++ U ": " ++ detail
  | Exception e => exc_str e
  end.

(** [completion.choices[0].message.content.strip()]. *)
Definition choices0_message_content_strip (completion : ChatCompletion)
  : pyerr + str :=
  match choices completion with
  | [] => inl (IndexError (U "list index out of range"))
  | choice :: _ =>
    match message_content choice with
    | None =>
      inl (AttributeError (U "'NoneType' object has no attribute 'strip'"))
    | Some s => inr (strip s)
    end
  end.

(* ===================================================================== *)
(** ** app.py *)
(* ===================================================================== *)

(** The two module-level values read with [os.getenv] at import. *)
Record environ : Type := {
  OPENAI_API_KEY : option str;
  CURRENTS_API_KEY : option str
}.

(** The object [os.getenv] returned. *)
Definition env_value (v : option str) : pyval :=
  match v with
  | None => PyNone
  | Some s => PyStr s
  end.

(** The dict that [generate_content] returns. *)
Record GeneratedContent : Type := {
  title : str;
  meta_description : str;
  post_content : str
}.

Section App.

Variable env : environ.
Variable w : world.

Definition get_recent_news (topic : str) : M str :=
  if negb (truthy (env_value (CURRENTS_API_KEY env))) then
    raise (HTTPException 500
             (U "Переменная окружения CURRENTS_API_KEY не установлена"))
  else
    let url := U "https://api.currentsapi.services/v1/latest-news" in
    let params :=
      [ (U "language", PyStr (U "ru"));
        (U "keywords", PyStr topic);
        (U "apiKey", env_value (CURRENTS_API_KEY env)) ] in
    response <- call_requests_get w {| url := url; params := params |} ;;
    if negb (status_code response =? 200)%Z then
      raise (HTTPException 500
               (U "Ошибка при получении данных: " ++ text response))
    else
      body <- lift (json response) ;;
      news_data <- lift (py_get body (U "news") (PyList [])) ;;
      if negb (truthy news_data) then
        ret (U "Свежих новостей не найдено.")
      else
        articles <- lift (slice5 news_data) ;;
        titles <- lift (collect (fun article => getitem article (U "title"))
                                articles) ;;
        lift (py_join NL titles).

Definition title_request (topic recent_news : str) : chat_request :=
  {| model := U "gpt-4o-mini";
     messages :=
       [ {| role := U "user";
            content :=
              U "Придумайте привлекательный и точный заголовок для статьи на тему "
              ++ U "'" ++ topic ++ U "', с учётом актуальных новостей:" ++ NL
              ++ recent_news ++ U ". "
              ++ U "Заголовок должен быть интересным и ясно передавать суть темы." |} ];
     max_tokens := 60;
     temperature := (1 # 2)%Q;
     stop := Some [NL];
     presence_penalty := None;
     frequency_penalty := None |}.

Definition meta_description_request (title : str) : chat_request :=
  {| model := U "gpt-4o-mini";
     messages :=
       [ {| role := U "user";
            content :=
              U "Напишите мета-описание для статьи с заголовком: "
              ++ U "'" ++ title ++ U "'. Оно должно быть полным, информативным и "
              ++ U "содержать основные ключевые слова." |} ];
     max_tokens := 120;
     temperature := (1 # 2)%Q;
     stop := Some [U "."];
     presence_penalty := None;
     frequency_penalty := None |}.

Definition post_content_request (topic recent_news : str) : chat_request :=
  {| model := U "gpt-4o-mini";
     messages :=
       [ {| role := U "user";
            content :=
              U "Напишите подробную статью на тему '" ++ topic
              ++ U "', используя последние новости:" ++ NL
              ++ recent_news ++ U "." ++ NL
              ++ U "Статья должна быть:" ++ NL
              ++ U "1. Информативной и логичной" ++ NL
              ++ U "3. Иметь четкую структуру с подзаголовками" ++ NL
              ++ U "5. Иметь вступление, основную часть и заключение" ++ NL
              ++ U "8. Текст должен быть легким для восприятия и содержательным" |} ];
     max_tokens := 100;
     temperature := (1 # 2)%Q;
     stop := None;
     presence_penalty := Some (3 # 5)%Q;
     frequency_penalty := Some (3 # 5)%Q |}.

(** The body of the [try] block of [generate_content]. *)
Definition generate_content_try (topic recent_news : str)
  : M GeneratedContent :=
  completion1 <- call_ChatCompletion_create w
                   (title_request topic recent_news) ;;
  title <- lift (choices0_message_content_strip completion1) ;;
  completion2 <- call_ChatCompletion_create w
                   (meta_description_request title) ;;
  meta_description <- lift (choices0_message_content_strip completion2) ;;
  completion3 <- call_ChatCompletion_create w
                   (post_content_request topic recent_news) ;;
  post_content <- lift (choices0_message_content_strip completion3) ;;
  ret {| title := title;
         meta_description := meta_description;
         post_content := post_content |}.

Definition generate_content (topic : str) : M GeneratedContent :=
  if negb (truthy (env_value (OPENAI_API_KEY env))) then
    raise (HTTPException 500
             (U "Переменная окружения OPENAI_API_KEY не установлена"))
  else
    recent_news <- get_recent_news topic ;;
    try_except
      (generate_content_try topic recent_news)
      (fun exc =>
         raise (HTTPException 500
                  (U "Ошибка при генерации контента: " ++ format_exc exc))).

End App.

(** The request model of [POST /generate-post]. *)
Record Topic : Type := { topic : str }.

Definition generate_post_api (env : environ) (w : world) (t : Topic)
  : M GeneratedContent :=
  generate_content env w (topic t).

(* ===================================================================== *)
(** ** The request boundary and the error kinds *)
(* ===================================================================== *)

Record http_response : Type := {
  response_status : Z;
  response_body : pyval
}.

(** What FastAPI sends for the outcome of a path operation: the returned
    dict with status 200; for an [HTTPException] its [status_code] and the
    body [{"detail": detail}]; for any other exception the server-error
    response. *)
Definition http_boundary (out : outcome GeneratedContent) : http_response :=
  match out with
  | Return c =>
    {| response_status := 200;
       response_body :=
         PyDict [ (U "title", PyStr (title c));
                  (U "meta_description", PyStr (meta_description c));
                  (U "post_content", PyStr (post_content c)) ] |}
  | Raise (HTTPException code detail) =>
    {| response_status := code;
       response_body := PyDict [ (U "detail", PyStr detail) ] |}
  | Raise (Exception _) =>
    {| response_status := 500;
       response_body := PyStr (U "Internal Server Error") |}
  end.

(** The three raise sites of app.py, under the names the specification
    gives to the kinds of error. *)
Definition ConfigurationError (name : str) : exn :=
  HTTPException 500
    (U "Переменная окружения " ++ name ++ U " не установлена").

Definition NewsFetchError (body : str) : exn :=
  HTTPException 500 (U "Ошибка при получении данных: " ++ body).

Definition GenerationError (cause : str) : exn :=
  HTTPException 500 (U "Ошибка при генерации контента: " ++ cause).

(** The request that [get_recent_news] sends. *)
Definition news_request_of (env : environ) (topic : str) : news_request :=
  {| url := U "https://api.currentsapi.services/v1/latest-news";
     params :=
       [ (U "language", PyStr (U "ru"));
         (U "keywords", PyStr topic);
         (U "apiKey", env_value (CURRENTS_API_KEY env)) ] |}.

(** What [get_recent_news] does with the response once it has arrived
    (its lines 38 to 48). *)
Definition after_response (response : Response) : M str :=
  if negb (status_code response =? 200)%Z then
    raise (HTTPException 500
             (U "Ошибка при получении данных: " ++ text response))
  else
    body <- lift (json response) ;;
    news_data <- lift (py_get body (U "news") (PyList [])) ;;
    if negb (truthy news_data) then
      ret (U "Свежих новостей не найдено.")
    else
      articles <- lift (slice5 news_data) ;;
      titles <- lift (collect (fun article => getitem article (U "title"))
                              articles) ;;
      lift (py_join NL titles).

(** A dict of a news article that carries a string under "title". *)
Definition article_title (article : pyval) : option str :=
  match article with
  | PyDict d =>
    match dict_lookup d (U "title") with
    | Some (PyStr s) => Some s
    | _ => None
    end
  | _ => None
  end.

(** The lines of a string, as [s.split("\n")] gives them. *)
Fixpoint split_lines (s : str) : list str :=
  match s with
  | [] => [[]]
  | c :: rest =>
    if (c =? 10)%N then [] :: split_lines rest
    else
      match split_lines rest with
      | [] => [[c]]
      | line :: lines => (c :: line) :: lines
      end
  end.

(** What one completion step of [generate_content] makes of the outcome of
    [create]: the stripped text of the first choice, or the exception of
    [create] or of the chain [.choices[0].message.content.strip()]. *)
Definition completion_result (out : pyerr + ChatCompletion) : pyerr + str :=
  match out with
  | inl e => inl e
  | inr completion => choices0_message_content_strip completion
  end.

(** How a completion call fails: [create] raises, or the response has no
    first choice with a text content. *)
Definition completion_failure (out : pyerr + ChatCompletion) : option pyerr :=
  match completion_result out with
  | inl e => Some e
  | inr _ => None
  end.

(** The text of the first choice of a completion, before stripping. *)
Definition first_text (completion : ChatCompletion) : option str :=
  match choices completion with
  | [] => None
  | choice :: _ => message_content choice
  end.

(** A field of a JSON-object response body. *)
Definition body_field (resp : http_response) (key : str) : option pyval :=
  match response_body resp with
  | PyDict d => dict_lookup d key
  | _ => None
  end.

Definition is_ChatCall (ev : event) : bool :=
  match ev with
  | ChatCall _ _ => true
  | NewsCall _ _ => false
  end.

(* ===================================================================== *)
(** ** Concrete environments and worlds *)
(* ===================================================================== *)

Definition env_both : environ :=
  {| OPENAI_API_KEY := Some (U "sk-test"); CURRENTS_API_KEY := Some (U "news-key") |}.

Definition env_no_keys : environ :=
  {| OPENAI_API_KEY := None; CURRENTS_API_KEY := None |}.

Definition env_no_openai : environ :=
  {| OPENAI_API_KEY := None; CURRENTS_API_KEY := Some (U "news-key") |}.

(** A world whose two endpoints always answer the same. *)
Definition constant_world (news : pyerr + Response)
  (completion : pyerr + ChatCompletion) : world :=
  {| requests_get := fun _ _ => news;
     ChatCompletion_create := fun _ _ => completion |}.

(** The double quote of the JSON texts below. *)
Definition DQ : str := [34%N].

Definition article (title : str) : pyval := PyDict [ (U "title", PyStr title) ].

(** A completion with one choice. *)
Definition completion_of (s : str) : ChatCompletion :=
  {| choices := [ {| message_content := Some s |} ] |}.

Definition good_completion : pyerr + ChatCompletion :=
  inr (completion_of (U "  Готовый текст  ")).

(** 200 with [{"news": []}]. *)
Definition response_no_articles : Response :=
  {| status_code := 200;
     text := U "{" ++ DQ ++ U "news" ++ DQ ++ U ": []}";
     json := inr (PyDict [ (U "news", PyList []) ]) |}.

(** 200 with [{"status": "ok"}]: no "news" key. *)
Definition response_no_news_key : Response :=
  {| status_code := 200;
     text := U "{" ++ DQ ++ U "status" ++ DQ ++ U ": " ++ DQ ++ U "ok" ++ DQ ++ U "}";
     json := inr (PyDict [ (U "status", PyStr (U "ok")) ]) |}.

Definition seven_titles : list str :=
  [ U "Первая"; U "Вторая"; U "Третья"; U "Четвёртая"; U "Пятая";
    U "Шестая"; U "Седьмая" ].

(** The JSON text of a list of articles whose titles need no escaping. *)
Definition articles_text (titles : list str) : str :=
  U "{" ++ DQ ++ U "news" ++ DQ ++ U ": ["
  ++ join (U ", ")
       (map (fun s => U "{" ++ DQ ++ U "title" ++ DQ ++ U ": " ++ DQ ++ s ++ DQ ++ U "}")
            titles)
  ++ U "]}".

(** 200 with seven articles. *)
Definition response_seven_articles : Response :=
  {| status_code := 200;
     text := articles_text seven_titles;
     json := inr (PyDict [ (U "news", PyList (map article seven_titles)) ]) |}.

(** The same body sent with status 201. *)
Definition response_201 : Response :=
  {| status_code := 201;
     text := articles_text seven_titles;
     json := inr (PyDict [ (U "news", PyList (map article seven_titles)) ]) |}.

(** 200 with one article whose title has two lines; in the JSON text the
    line break is the escape [\n]. *)
Definition two_line_title : str := U "Итоги дня" ++ NL ++ U "Главное".

Definition response_two_line_title : Response :=
  {| status_code := 200;
     text := articles_text [ U "Итоги дня\nГлавное" ];
     json := inr (PyDict [ (U "news", PyList [ article two_line_title ]) ]) |}.

(** 503 with a body that is not JSON. *)
Definition response_503 : Response :=
  {| status_code := 503;
     text := U "Service Unavailable";
     json := inl (PyErr "JSONDecodeError"
                    (U "Expecting value: line 1 column 1 (char 0)")) |}.

Definition world_no_articles : world :=
  constant_world (inr response_no_articles) good_completion.

Definition world_no_news_key : world :=
  constant_world (inr response_no_news_key) good_completion.

Definition world_seven_articles : world :=
  constant_world (inr response_seven_articles) good_completion.

Definition world_201 : world :=
  constant_world (inr response_201) good_completion.

Definition world_two_line_title : world :=
  constant_world (inr response_two_line_title) good_completion.

Definition world_503 : world :=
  constant_world (inr response_503) good_completion.

(** The completion endpoint answers with an empty text. *)
Definition world_empty_completions : world :=
  constant_world (inr response_seven_articles) (inr (completion_of [])).

Definition quota_error : pyerr :=
  PyErr "RateLimitError" (U "You exceeded your current quota").

(** The second completion call of a request fails. *)
Definition world_second_completion_fails : world :=
  {| requests_get := fun _ _ => inr response_seven_articles;
     ChatCompletion_create := fun t _ =>
       if Nat.eqb (List.length (filter is_ChatCall t)) 1
       then inl quota_error
       else good_completion |}.

(** What a run with [good_completion] returns. *)
Definition ready_content : GeneratedContent :=
  {| title := U "Готовый текст";
     meta_description := U "Готовый текст";
     post_content := U "Готовый текст" |}.

Definition sport_topic : Topic := {| topic := U "спорт" |}.

(* ===================================================================== *)
(** ** The entry point of app.py *)
(* ===================================================================== *)

(** The names of the variables that the [__main__] block finds unset, in
    the order of its dict. *)
Definition missing (env : environ) : list str :=
  map fst
    (filter (fun item => negb (truthy (env_value (snd item))))
       [ (U "OPENAI_API_KEY", OPENAI_API_KEY env);
         (U "CURRENTS_API_KEY", CURRENTS_API_KEY env) ]).

(** The arguments of [uvicorn.run]. *)
Record uvicorn_run : Type := { application : str; host : str; port : Z }.

Definition RuntimeError (m : str) : pyerr := PyErr "RuntimeError" m.

Section Main.

(** [int(s)] on a string is the interpreter's parser, taken as given. *)
Variable int_of_str : str -> pyerr + Z.

(** The body of [if __name__ == "__main__":], with the value of
    [os.getenv("PORT")]; it ends in the call of [uvicorn.run]. *)
Definition main (env : environ) (PORT : option str) : pyerr + uvicorn_run :=
  match missing env with
  | _ :: _ =>
    let joined := join (U ", ") (missing env) in
    inl (RuntimeError
           (U "Перед запуском задайте переменные окружения: " ++ joined))
  | [] =>
    match (match PORT with
           | Some s => int_of_str s
           | None => inr 8000%Z
           end) with
    | inl e => inl e
    | inr port =>
      inr {| application := U "app:app"; host := U "0.0.0.0"; port := port |}
    end
  end.

End Main.

(* ===================================================================== *)
(** ** More concrete environments and worlds *)
(* ===================================================================== *)

Definition env_empty_keys : environ :=
  {| OPENAI_API_KEY := Some []; CURRENTS_API_KEY := Some [] |}.

Definition env_no_currents : environ :=
  {| OPENAI_API_KEY := Some (U "sk-test"); CURRENTS_API_KEY := None |}.

Definition connection_error : pyerr :=
  PyErr "ConnectionError" (U "Connection refused").

(** The news endpoint cannot be reached. *)
Definition world_network_down : world :=
  constant_world (inl connection_error) good_completion.

(** 200 with a body that is not JSON. *)
Definition response_html_200 : Response :=
  {| status_code := 200;
     text := U "<html>maintenance</html>";
     json := inl (PyErr "JSONDecodeError"
                    (U "Expecting value: line 1 column 1 (char 0)")) |}.

(** 200 with the JSON array [[]]. *)
Definition response_list_body : Response :=
  {| status_code := 200;
     text := U "[]";
     json := inr (PyList []) |}.

(** 200 with [{"news": null}]. *)
Definition response_null_news : Response :=
  {| status_code := 200;
     text := U "{" ++ DQ ++ U "news" ++ DQ ++ U ": null}";
     json := inr (PyDict [ (U "news", PyNone) ]) |}.

(** 200 with five articles followed by [null] and [7]. *)
Definition response_bad_sixth : Response :=
  {| status_code := 200;
     text :=
       U "{" ++ DQ ++ U "news" ++ DQ ++ U ": ["
       ++ join (U ", ")
            (map (fun s => U "{" ++ DQ ++ U "title" ++ DQ ++ U ": " ++ DQ ++ s
                           ++ DQ ++ U "}")
                 (firstn 5 seven_titles))
       ++ U ", null, 7]}";
     json :=
       inr (PyDict [ (U "news",
                      PyList (map article (firstn 5 seven_titles)
                              ++ [ PyNone; PyInt 7 ])) ]) |}.

Definition world_html_200 : world :=
  constant_world (inr response_html_200) good_completion.

Definition world_list_body : world :=
  constant_world (inr response_list_body) good_completion.

Definition world_null_news : world :=
  constant_world (inr response_null_news) good_completion.

Definition world_bad_sixth : world :=
  constant_world (inr response_bad_sixth) good_completion.

(** 201 with [{"news": []}]. *)
Definition response_201_no_articles : Response :=
  {| status_code := 201;
     text := U "{" ++ DQ ++ U "news" ++ DQ ++ U ": []}";
     json := inr (PyDict [ (U "news", PyList []) ]) |}.

Definition world_201_no_articles : world :=
  constant_world (inr response_201_no_articles) good_completion.

(** A parser for the witnesses: it rejects every string. *)
Definition no_int (s : str) : pyerr + Z :=
  inl (PyErr "ValueError" (U "invalid literal for int() with base 10")).

(** A computation that makes no outbound call. *)
Definition silent {A : Type} (m : M A) : Prop := forall t, snd (m t) = t.

Arguments U : simpl never.

(* ===================================================================== *)
(** ** Lemmas on the monad *)
(* ===================================================================== *)

Lemma silent_ret {A : Type} (a : A) : silent (ret a).
Proof. intro t; reflexivity. Qed.

Lemma silent_raise {A : Type} (e : exn) : silent (@raise A e).
Proof. intro t; reflexivity. Qed.

Lemma silent_lift {A : Type} (r : pyerr + A) : silent (lift r).
Proof. destruct r; intro t; reflexivity. Qed.

Lemma silent_bind {A B : Type} (m : M A) (k : A -> M B) :
  silent m -> (forall a, silent (k a)) -> silent (bind m k).
Proof.
  intros Hm Hk t. unfold bind.
  specialize (Hm t). destruct (m t) as [[a | e] t']; simpl in Hm; subst t'.
  - apply Hk.
  - reflexivity.
Qed.

Lemma silent_if {A : Type} (b : bool) (m1 m2 : M A) :
  silent m1 -> silent m2 -> silent (if b then m1 else m2).
Proof. destruct b; auto. Qed.

Create HintDb silent.
#[export] Hint Resolve silent_ret silent_raise silent_lift silent_if : silent.
#[export] Hint Extern 2 (silent (bind _ _)) =>
  apply silent_bind; [ | intro ] : silent.

Lemma Raise_inj {A : Type} (e1 e2 : exn) :
  @Raise A e1 = Raise e2 -> e1 = e2.
Proof. intro H. injection H as H. exact H. Qed.

Lemma trace_not_extended (t : trace) (ev : event) (evs : list event) :
  t = t ++ ev :: evs -> False.
Proof.
  intro H. apply (f_equal (@List.length event)) in H.
  rewrite length_app in H. simpl in H. lia.
Qed.

Lemma last_event_inj (t : trace) (a b : event) :
  t ++ [a] = t ++ [b] -> a = b.
Proof. intro H. apply app_inv_head in H. congruence. Qed.

(** The two configuration messages, cut at the name of the variable. *)
Lemma CURRENTS_API_KEY_detail :
  U "Переменная окружения " ++ U "CURRENTS_API_KEY" ++ U " не установлена"
  = U "Переменная окружения CURRENTS_API_KEY не установлена".
Proof. vm_compute. reflexivity. Qed.

Lemma OPENAI_API_KEY_detail :
  U "Переменная окружения " ++ U "OPENAI_API_KEY" ++ U " не установлена"
  = U "Переменная окружения OPENAI_API_KEY не установлена".
Proof. vm_compute. reflexivity. Qed.

(* ===================================================================== *)
(** ** The news fetcher *)
(* ===================================================================== *)

Section NewsFetcher.

Variable env : environ.
Variable w : world.

Lemma after_response_silent response : silent (after_response response).
Proof. unfold after_response. auto 10 with silent. Qed.

Lemma get_recent_news_unfold topic :
  get_recent_news env w topic =
  if negb (truthy (env_value (CURRENTS_API_KEY env))) then
    raise (ConfigurationError (U "CURRENTS_API_KEY"))
  else
    bind (call_requests_get w (news_request_of env topic)) after_response.
Proof.
  unfold get_recent_news, ConfigurationError.
  rewrite <- CURRENTS_API_KEY_detail. reflexivity.
Qed.

(** Without the key nothing is sent. *)
Lemma get_recent_news_no_key topic t :
  truthy (env_value (CURRENTS_API_KEY env)) = false ->
  get_recent_news env w topic t
  = (Raise (ConfigurationError (U "CURRENTS_API_KEY")), t).
Proof.
  intro K. rewrite get_recent_news_unfold, K. reflexivity.
Qed.

(** With the key exactly one call is made, whatever comes back. *)
Lemma get_recent_news_with_key topic t :
  truthy (env_value (CURRENTS_API_KEY env)) = true ->
  let req := news_request_of env topic in
  let out := requests_get w t req in
  get_recent_news env w topic t
  = (match out with
     | inl e => Raise (Exception e)
     | inr response => fst (after_response response (t ++ [NewsCall req out]))
     end, t ++ [NewsCall req out]).
Proof.
  intros K req out. rewrite get_recent_news_unfold, K.
  change (negb true) with false. cbv iota.
  unfold bind, call_requests_get. cbv beta zeta.
  subst out. fold req.
  destruct (requests_get w t req) as [e | response]; [ reflexivity | ].
  rewrite (surjective_pairing (after_response response _)).
  rewrite after_response_silent. reflexivity.
Qed.

(** The run of [get_recent_news] that received the response [r]. *)
Lemma get_recent_news_answered topic t req r :
  snd (get_recent_news env w topic t) = t ++ [NewsCall req (inr r)] ->
  fst (get_recent_news env w topic t)
  = fst (after_response r (t ++ [NewsCall req (inr r)])).
Proof.
  intro Htr.
  destruct (truthy (env_value (CURRENTS_API_KEY env))) eqn:K.
  - rewrite (get_recent_news_with_key topic t K) in *. simpl in *.
    apply last_event_inj in Htr.
    injection Htr as Hreq Hout. rewrite Hout. rewrite Hreq. reflexivity.
  - rewrite (get_recent_news_no_key topic t K) in Htr. simpl in Htr.
    exfalso. exact (trace_not_extended _ _ _ Htr).
Qed.

End NewsFetcher.

(* ===================================================================== *)
(** ** What becomes of a response *)
(* ===================================================================== *)

Ltac run_pure :=
  unfold bind, lift, ret, raise; cbv beta.

(** Any status other than 200 raises, with the body in the detail. *)
Lemma after_response_not_200 r t :
  status_code r <> 200%Z ->
  after_response r t = (Raise (NewsFetchError (text r)), t).
Proof.
  intro H. unfold after_response.
  apply Z.eqb_neq in H. rewrite H. reflexivity.
Qed.

(** With status 200 and a falsy "news" the fixed message is returned. *)
Lemma after_response_falsy r t body news_data :
  status_code r = 200%Z ->
  json r = inr body ->
  py_get body (U "news") (PyList []) = inr news_data ->
  truthy news_data = false ->
  after_response r t = (Return (U "Свежих новостей не найдено."), t).
Proof.
  intros Hs Hj Hg Ht. unfold after_response. rewrite Hs.
  run_pure. rewrite Hj, Hg, Ht. reflexivity.
Qed.

(** With status 200 and a truthy "news" the titles are joined. *)
Lemma after_response_truthy r t body news_data :
  status_code r = 200%Z ->
  json r = inr body ->
  py_get body (U "news") (PyList []) = inr news_data ->
  truthy news_data = true ->
  after_response r t
  = (match slice5 news_data with
     | inl e => Raise (Exception e)
     | inr articles =>
       match collect (fun a => getitem a (U "title")) articles with
       | inl e => Raise (Exception e)
       | inr titles =>
         match py_join NL titles with
         | inl e => Raise (Exception e)
         | inr s => Return s
         end
       end
     end, t).
Proof.
  intros Hs Hj Hg Ht. unfold after_response. rewrite Hs.
  run_pure. rewrite Hj, Hg, Ht.
  change (negb true) with false. cbv iota.
  destruct (slice5 news_data); [ reflexivity | ].
  destruct (collect _ _); [ reflexivity | ].
  destruct (py_join _ _); reflexivity.
Qed.

(** With status 200 no [HTTPException] is raised. *)
Lemma after_response_200_no_HTTPException r t code detail :
  status_code r = 200%Z ->
  fst (after_response r t) <> Raise (HTTPException code detail).
Proof.
  intro Hs. unfold after_response. rewrite Hs.
  change (negb (200 =? 200)%Z) with false. cbv iota.
  run_pure.
  destruct (json r) as [e | body]; [ simpl; discriminate | ].
  destruct (py_get body (U "news") (PyList [])) as [e | news_data];
    [ simpl; discriminate | ].
  destruct (negb (truthy news_data)); [ simpl; discriminate | ].
  destruct (slice5 news_data) as [e | articles]; [ simpl; discriminate | ].
  destruct (collect _ articles) as [e | titles]; [ simpl; discriminate | ].
  destruct (py_join NL titles); simpl; discriminate.
Qed.

Lemma collect_titles articles : forall titles,
  map article_title articles = map Some titles ->
  collect (fun a => getitem a (U "title")) articles = inr (map PyStr titles).
Proof.
  induction articles as [| a articles IH]; intros [| s titles] H;
    simpl in H; try discriminate.
  - reflexivity.
  - injection H as Ha Hrest. simpl.
    rewrite (IH titles Hrest).
    unfold article_title in Ha. unfold getitem.
    destruct a; try discriminate.
    destruct (dict_lookup d (U "title")) as [v |]; [ | discriminate ].
    destruct v; try discriminate.
    injection Ha as ->. reflexivity.
Qed.

Lemma expect_strs_strings titles : forall i,
  expect_strs i (map PyStr titles) = inr titles.
Proof.
  induction titles as [| s titles IH]; intro i; simpl.
  - reflexivity.
  - rewrite IH. reflexivity.
Qed.

Lemma py_join_strings sep titles :
  py_join sep (map PyStr titles) = inr (join sep titles).
Proof. unfold py_join. rewrite expect_strs_strings. reflexivity. Qed.

(** A string without a line break is one line. *)
Lemma split_lines_one_line s :
  ~ In 10%N s -> split_lines s = [s].
Proof.
  induction s as [| c s IH]; intro H; simpl.
  - reflexivity.
  - destruct (N.eqb_spec c 10) as [-> | _].
    + exfalso. apply H. left. reflexivity.
    + rewrite IH; [ reflexivity | ].
      intro Hin. apply H. right. exact Hin.
Qed.

Lemma split_lines_app s rest :
  ~ In 10%N s -> split_lines (s ++ 10%N :: rest) = s :: split_lines rest.
Proof.
  induction s as [| c s IH]; intro H; simpl.
  - reflexivity.
  - destruct (N.eqb_spec c 10) as [-> | _].
    + exfalso. apply H. left. reflexivity.
    + rewrite IH; [ reflexivity | ].
      intro Hin. apply H. right. exact Hin.
Qed.

(** Joining by line breaks and splitting again gives the strings back,
    when none of them has a line break. *)
Lemma split_lines_join titles :
  titles <> [] ->
  (forall s, In s titles -> ~ In 10%N s) ->
  split_lines (join NL titles) = titles.
Proof.
  induction titles as [| s titles IH]; intros Hne H.
  - contradiction.
  - destruct titles as [| s' titles].
    + simpl. apply split_lines_one_line. apply H. left. reflexivity.
    + change (join NL (s :: s' :: titles))
        with (s ++ 10%N :: join NL (s' :: titles)).
      rewrite split_lines_app by (apply H; left; reflexivity).
      rewrite IH; [ reflexivity | discriminate | ].
      intros x Hx. apply H. right. exact Hx.
Qed.

Lemma In_firstn {A : Type} (x : A) (n : nat) (l : list A) :
  In x (firstn n l) -> In x l.
Proof.
  intro H. rewrite <- (firstn_skipn n l). apply in_or_app. left. exact H.
Qed.

Lemma firstn_titles articles titles n :
  map article_title articles = map Some titles ->
  map article_title (firstn n articles) = map Some (firstn n titles).
Proof.
  intro H. rewrite <- !firstn_map. rewrite H. reflexivity.
Qed.

(** The two kinds of [HTTPException] of the news fetcher differ. *)
Lemma ConfigurationError_not_NewsFetchError name body :
  ConfigurationError name <> NewsFetchError body.
Proof.
  unfold ConfigurationError, NewsFetchError. intro H.
  injection H as H. vm_compute in H. discriminate H.
Qed.

(* ===================================================================== *)
(** ** Properties of [get_recent_news] *)
(* ===================================================================== *)

(** C1, as the code has it.  When the news endpoint has answered the call
    of [get_recent_news] with status 200 and a "news" list without
    articles, the function returns exactly the fixed message of line 46,
    "Свежих новостей не найдено.", which is not the empty string. *)
Theorem get_recent_news_no_articles env w topic t req r d :
  snd (get_recent_news env w topic t) = t ++ [NewsCall req (inr r)] ->
  status_code r = 200%Z ->
  json r = inr (PyDict d) ->
  dict_lookup d (U "news") = Some (PyList []) ->
  fst (get_recent_news env w topic t) = Return (U "Свежих новостей не найдено.")
  /\ U "Свежих новостей не найдено." <> [].
Proof.
  intros Htr Hs Hj Hd. split.
  - rewrite (get_recent_news_answered env w topic t req r Htr).
    rewrite (after_response_falsy r _ (PyDict d) (PyList []) Hs Hj).
    + reflexivity.
    + unfold py_get. rewrite Hd. reflexivity.
    + reflexivity.
  - vm_compute. discriminate.
Qed.

Lemma get_recent_news_no_articles_witness :
  fst (get_recent_news env_both world_no_articles
         (U "искусственный интеллект") [])
  = Return (U "Свежих новостей не найдено.")
  /\ U "Свежих новостей не найдено." <> [].
Proof.
  apply (get_recent_news_no_articles env_both world_no_articles
           (U "искусственный интеллект") []
           (news_request_of env_both (U "искусственный интеллект"))
           response_no_articles [ (U "news", PyList []) ]);
    vm_compute; reflexivity.
Defined.

(** C1 as stated fails twice.  A 2xx answer other than 200 with an empty
    "news" list is not treated as success: at 201 the news-fetch error is
    raised and no string is returned.  And at 200 the string returned is
    the Russian message of line 46, not the text "no recent news found". *)
Lemma get_recent_news_201_no_articles_is_an_error :
  (200 <= status_code response_201_no_articles < 300)%Z
  /\ json response_201_no_articles = inr (PyDict [ (U "news", PyList []) ])
  /\ snd (get_recent_news env_both world_201_no_articles (U "спорт") [])
     = [NewsCall (news_request_of env_both (U "спорт"))
          (inr response_201_no_articles)]
  /\ fst (get_recent_news env_both world_201_no_articles (U "спорт") [])
     = Raise (NewsFetchError (text response_201_no_articles))
  /\ fst (get_recent_news env_both world_no_articles (U "спорт") [])
     = Return (U "Свежих новостей не найдено.")
  /\ U "Свежих новостей не найдено." <> U "no recent news found".
Proof.
  split; [ simpl; lia | ].
  split; [ reflexivity | ].
  split; [ vm_compute; reflexivity | ].
  split; [ vm_compute; reflexivity | ].
  split; [ vm_compute; reflexivity | ].
  vm_compute. discriminate.
Qed.

(** C10.  When the endpoint has answered with status 200 and a JSON object
    that has no "news" key, or whose "news" is the empty list, the function
    returns the same fixed message and raises nothing: the two bodies are
    not told apart. *)
Theorem get_recent_news_missing_news_key env w topic t req r d :
  snd (get_recent_news env w topic t) = t ++ [NewsCall req (inr r)] ->
  status_code r = 200%Z ->
  json r = inr (PyDict d) ->
  dict_lookup d (U "news") = None
  \/ dict_lookup d (U "news") = Some (PyList []) ->
  get_recent_news env w topic t
  = (Return (U "Свежих новостей не найдено."),
     t ++ [NewsCall req (inr r)]).
Proof.
  intros Htr Hs Hj Hd.
  rewrite (surjective_pairing (get_recent_news env w topic t)).
  rewrite (get_recent_news_answered env w topic t req r Htr), Htr.
  rewrite (after_response_falsy r _ (PyDict d) (PyList []) Hs Hj).
  - reflexivity.
  - unfold py_get. destruct Hd as [-> | ->]; reflexivity.
  - reflexivity.
Qed.

Lemma get_recent_news_missing_news_key_witness :
  get_recent_news env_both world_no_news_key (U "погода") []
  = (Return (U "Свежих новостей не найдено."),
     [] ++ [NewsCall (news_request_of env_both (U "погода"))
              (inr response_no_news_key)]).
Proof.
  apply (get_recent_news_missing_news_key env_both world_no_news_key
           (U "погода") []
           (news_request_of env_both (U "погода"))
           response_no_news_key [ (U "status", PyStr (U "ok")) ]).
  - vm_compute. reflexivity.
  - reflexivity.
  - reflexivity.
  - left. vm_compute. reflexivity.
Defined.

(** C8.  When CURRENTS_API_KEY is unset, [get_recent_news] raises the
    configuration error and the trace of outbound calls is unchanged. *)
Theorem get_recent_news_key_unset env w topic t :
  CURRENTS_API_KEY env = None ->
  get_recent_news env w topic t
  = (Raise (ConfigurationError (U "CURRENTS_API_KEY")), t).
Proof.
  intro H. apply get_recent_news_no_key. rewrite H. reflexivity.
Qed.

Lemma get_recent_news_key_unset_witness :
  get_recent_news env_no_keys world_seven_articles (U "спорт") []
  = (Raise (ConfigurationError (U "CURRENTS_API_KEY")), []).
Proof.
  apply (get_recent_news_key_unset env_no_keys world_seven_articles
           (U "спорт") []).
  reflexivity.
Defined.

(** C3, as the code has it.  [get_recent_news] raises the news-fetch error
    exactly when the endpoint has answered its call with a status other
    than 200; the detail then carries the body of the response.  A response
    with status 200 never yields an [HTTPException]. *)
Theorem get_recent_news_NewsFetchError_iff env w topic t :
  ((exists body,
       fst (get_recent_news env w topic t) = Raise (NewsFetchError body))
   <->
   (exists req r,
       snd (get_recent_news env w topic t) = t ++ [NewsCall req (inr r)]
       /\ status_code r <> 200%Z))
  /\
  (forall req r,
      snd (get_recent_news env w topic t) = t ++ [NewsCall req (inr r)] ->
      (status_code r <> 200%Z ->
       fst (get_recent_news env w topic t) = Raise (NewsFetchError (text r)))
      /\
      (status_code r = 200%Z ->
       forall code detail,
         fst (get_recent_news env w topic t)
         <> Raise (HTTPException code detail))).
Proof.
  assert (Hans : forall req r,
      snd (get_recent_news env w topic t) = t ++ [NewsCall req (inr r)] ->
      (status_code r <> 200%Z ->
       fst (get_recent_news env w topic t) = Raise (NewsFetchError (text r)))
      /\
      (status_code r = 200%Z ->
       forall code detail,
         fst (get_recent_news env w topic t)
         <> Raise (HTTPException code detail))).
  { intros req r Htr.
    rewrite (get_recent_news_answered env w topic t req r Htr). split.
    - intro Hs. rewrite (after_response_not_200 r _ Hs). reflexivity.
    - intros Hs code detail.
      apply after_response_200_no_HTTPException. exact Hs. }
  split; [ split | exact Hans ].
  - intros [body Hbody].
    destruct (truthy (env_value (CURRENTS_API_KEY env))) eqn:K.
    + pose proof (get_recent_news_with_key env w topic t K) as Hrun.
      cbv zeta in Hrun.
      destruct (requests_get w t (news_request_of env topic))
        as [e | r] eqn:Hout.
      * rewrite Hrun in Hbody. simpl in Hbody. discriminate Hbody.
      * exists (news_request_of env topic), r.
        assert (Htr : snd (get_recent_news env w topic t)
                      = t ++ [NewsCall (news_request_of env topic) (inr r)])
          by (rewrite Hrun; reflexivity).
        split; [ exact Htr | ].
        intro Hs. destruct (Hans _ _ Htr) as [_ H200].
        exact (H200 Hs _ _ Hbody).
    + rewrite (get_recent_news_no_key env w topic t K) in Hbody.
      simpl in Hbody. apply Raise_inj in Hbody.
      destruct (ConfigurationError_not_NewsFetchError _ _ Hbody).
  - intros (req & r & Htr & Hs). exists (text r).
    apply (Hans req r Htr). exact Hs.
Qed.

(** C3 as stated fails: a response with the 2xx status 201 and seven
    articles is not treated as success, the news-fetch error is raised. *)
Lemma get_recent_news_201_is_an_error :
  (200 <= status_code response_201 < 300)%Z
  /\ snd (get_recent_news env_both world_201 (U "спорт") [])
     = [NewsCall (news_request_of env_both (U "спорт")) (inr response_201)]
  /\ fst (get_recent_news env_both world_201 (U "спорт") [])
     = Raise (NewsFetchError (text response_201)).
Proof.
  split; [ simpl; lia | ].
  split; vm_compute; reflexivity.
Qed.

Lemma get_recent_news_NewsFetchError_iff_witness :
  fst (get_recent_news env_both world_503 (U "спорт") [])
  = Raise (NewsFetchError (text response_503)).
Proof.
  apply (proj2 (get_recent_news_NewsFetchError_iff env_both world_503
                  (U "спорт") [])
           (news_request_of env_both (U "спорт")) response_503).
  - vm_compute. reflexivity.
  - simpl. discriminate.
Defined.

(** C2, as the code has it.  When the endpoint has answered with status 200
    and a non-empty "news" list of articles that each carry a string title,
    [get_recent_news] returns the titles of the first five articles (all of
    them when there are fewer), in upstream order, joined by line breaks.
    When no title contains a line break, the lines of the result are
    exactly these titles, at most five. *)
Theorem get_recent_news_titles env w topic t req r d articles titles :
  snd (get_recent_news env w topic t) = t ++ [NewsCall req (inr r)] ->
  status_code r = 200%Z ->
  json r = inr (PyDict d) ->
  dict_lookup d (U "news") = Some (PyList articles) ->
  articles <> [] ->
  map article_title articles = map Some titles ->
  fst (get_recent_news env w topic t) = Return (join NL (firstn 5 titles))
  /\ (List.length (firstn 5 titles) <= 5)%nat
  /\ List.length (firstn 5 titles) = Nat.min 5 (List.length articles)
  /\ ((forall s, In s titles -> ~ In 10%N s) ->
      split_lines (join NL (firstn 5 titles)) = firstn 5 titles).
Proof.
  intros Htr Hs Hj Hd Hne Ht.
  assert (Hlen : List.length titles = List.length articles).
  { apply (f_equal (@List.length _)) in Ht.
    rewrite !length_map in Ht. symmetry. exact Ht. }
  repeat split.
  - rewrite (get_recent_news_answered env w topic t req r Htr).
    rewrite (after_response_truthy r _ (PyDict d) (PyList articles) Hs Hj).
    + unfold slice5.
      rewrite (collect_titles _ _ (firstn_titles articles titles 5 Ht)).
      rewrite py_join_strings. reflexivity.
    + unfold py_get. rewrite Hd. reflexivity.
    + destruct articles; [ contradiction | reflexivity ].
  - apply firstn_le_length.
  - rewrite length_firstn, Hlen. reflexivity.
  - intro Hnl. apply split_lines_join.
    + destruct titles as [| s titles]; [ | discriminate ].
      destruct articles; [ contradiction | discriminate Hlen ].
    + intros s Hin. apply Hnl. exact (In_firstn _ _ _ Hin).
Qed.

Lemma get_recent_news_titles_witness :
  fst (get_recent_news env_both world_seven_articles (U "новости") [])
  = Return (join NL (firstn 5 seven_titles))
  /\ (List.length (firstn 5 seven_titles) <= 5)%nat
  /\ List.length (firstn 5 seven_titles)
     = Nat.min 5 (List.length (map article seven_titles))
  /\ ((forall s, In s seven_titles -> ~ In 10%N s) ->
      split_lines (join NL (firstn 5 seven_titles)) = firstn 5 seven_titles).
Proof.
  apply (get_recent_news_titles env_both world_seven_articles
           (U "новости") []
           (news_request_of env_both (U "новости"))
           response_seven_articles
           [ (U "news", PyList (map article seven_titles)) ]
           (map article seven_titles) seven_titles).
  - vm_compute. reflexivity.
  - reflexivity.
  - reflexivity.
  - vm_compute. reflexivity.
  - vm_compute. discriminate.
  - vm_compute. reflexivity.
Defined.

(** C2 as stated fails: with one upstream article whose title has two
    lines, the result has two lines and neither is an upstream title. *)
Lemma get_recent_news_line_is_no_title :
  fst (get_recent_news env_both world_two_line_title (U "новости") [])
  = Return two_line_title
  /\ split_lines two_line_title = [ U "Итоги дня"; U "Главное" ]
  /\ ~ In (U "Итоги дня") [ two_line_title ]
  /\ ~ In (U "Главное") [ two_line_title ].
Proof.
  split; [ vm_compute; reflexivity | ].
  split; [ vm_compute; reflexivity | ].
  split; intros [H | []]; vm_compute in H; discriminate H.
Qed.

(* ===================================================================== *)
(** ** The content generator *)
(* ===================================================================== *)

(** Stripping leaves nothing exactly when there is only whitespace. *)
Lemma lstrip_nil s : lstrip s = [] <-> forallb isspace s = true.
Proof.
  induction s as [| c s IH]; simpl.
  - split; reflexivity.
  - destruct (isspace c); simpl.
    + exact IH.
    + split; discriminate.
Qed.

Lemma lstrip_head s c rest : lstrip s = c :: rest -> isspace c = false.
Proof.
  induction s as [| x s IH]; simpl; [ discriminate | ].
  destruct (isspace x) eqn:Hx.
  - exact IH.
  - intro H. injection H as -> _. exact Hx.
Qed.

Lemma forallb_rev {A : Type} (f : A -> bool) (l : list A) :
  forallb f (rev l) = forallb f l.
Proof.
  induction l as [| x l IH]; simpl.
  - reflexivity.
  - rewrite forallb_app, IH. simpl. rewrite andb_true_r. apply andb_comm.
Qed.

Lemma strip_nil s : strip s = [] <-> forallb isspace s = true.
Proof.
  unfold strip, rstrip. split.
  - intro H. apply (f_equal (@rev N)) in H. rewrite rev_involutive in H.
    simpl in H. apply lstrip_nil in H. rewrite forallb_rev in H.
    destruct (lstrip s) as [| c rest] eqn:Hl.
    + apply lstrip_nil. exact Hl.
    + apply lstrip_head in Hl. simpl in H. rewrite Hl in H. discriminate H.
  - intro H. apply lstrip_nil in H. rewrite H. reflexivity.
Qed.

(** One step of the chain: the call and the extraction of its text. *)
Lemma completion_step {B : Type} w req (k : str -> M B) t :
  (completion <- call_ChatCompletion_create w req ;;
   s <- lift (choices0_message_content_strip completion) ;;
   k s) t
  = match completion_result (ChatCompletion_create w t req) with
    | inl e =>
      (Raise (Exception e),
       t ++ [ChatCall req (ChatCompletion_create w t req)])
    | inr s => k s (t ++ [ChatCall req (ChatCompletion_create w t req)])
    end.
Proof.
  unfold bind, call_ChatCompletion_create, completion_result. cbv zeta.
  destruct (ChatCompletion_create w t req) as [e | completion];
    [ reflexivity | ].
  destruct (choices0_message_content_strip completion); reflexivity.
Qed.

Section ContentGenerator.

Variable w : world.
Variables (topic recent_news : str) (t : trace).

Let req1 := title_request topic recent_news.
Let out1 := ChatCompletion_create w t req1.
Let t1 := t ++ [ChatCall req1 out1].
Let req2 (title : str) := meta_description_request title.
Let out2 (title : str) := ChatCompletion_create w t1 (req2 title).
Let t2 (title : str) := t ++ [ChatCall req1 out1; ChatCall (req2 title) (out2 title)].
Let req3 := post_content_request topic recent_news.
Let out3 (title : str) := ChatCompletion_create w (t2 title) req3.
Let t3 (title : str) :=
  t ++ [ChatCall req1 out1; ChatCall (req2 title) (out2 title);
        ChatCall req3 (out3 title)].

(** The [try] block, call by call. *)
Lemma generate_content_try_run :
  generate_content_try w topic recent_news t
  = match completion_result out1 with
    | inl e => (Raise (Exception e), t1)
    | inr title =>
      match completion_result (out2 title) with
      | inl e => (Raise (Exception e), t2 title)
      | inr meta_description =>
        match completion_result (out3 title) with
        | inl e => (Raise (Exception e), t3 title)
        | inr post_content =>
          (Return {| title := title;
                     meta_description := meta_description;
                     post_content := post_content |}, t3 title)
        end
      end
    end.
Proof.
  unfold generate_content_try. rewrite completion_step.
  fold req1. fold out1. fold t1.
  destruct (completion_result out1) as [e | title]; [ reflexivity | ].
  rewrite completion_step.
  assert (E2 : t1 ++ [ChatCall (meta_description_request title)
                        (ChatCompletion_create w t1
                           (meta_description_request title))]
               = t2 title).
  { unfold t1, t2, out2, req2. rewrite <- app_assoc. reflexivity. }
  rewrite E2. fold (req2 title). fold (out2 title).
  destruct (completion_result (out2 title)) as [e | meta]; [ reflexivity | ].
  rewrite completion_step.
  assert (E3 : t2 title ++ [ChatCall (post_content_request topic recent_news)
                              (ChatCompletion_create w (t2 title)
                                 (post_content_request topic recent_news))]
               = t3 title).
  { unfold t2, t3, out3, req3. rewrite <- app_assoc. reflexivity. }
  rewrite E3. fold req3. fold (out3 title).
  destruct (completion_result (out3 title)) as [e | post]; reflexivity.
Qed.

End ContentGenerator.

(** The events that one run of [get_recent_news] adds: none, or the one
    call to the news endpoint. *)
Lemma get_recent_news_events env w topic t :
  exists evs,
    snd (get_recent_news env w topic t) = t ++ evs
    /\ filter is_ChatCall evs = [].
Proof.
  destruct (truthy (env_value (CURRENTS_API_KEY env))) eqn:K.
  - rewrite (get_recent_news_with_key env w topic t K).
    eexists. split; reflexivity.
  - rewrite (get_recent_news_no_key env w topic t K).
    exists []. split; [ simpl; rewrite app_nil_r | ]; reflexivity.
Qed.

(** What [get_recent_news] can raise. *)
Lemma get_recent_news_raises env w topic t e :
  fst (get_recent_news env w topic t) = Raise e ->
  e = ConfigurationError (U "CURRENTS_API_KEY")
  \/ (exists body, e = NewsFetchError body)
  \/ (exists pe, e = Exception pe).
Proof.
  intro H.
  destruct (truthy (env_value (CURRENTS_API_KEY env))) eqn:K.
  - rewrite (get_recent_news_with_key env w topic t K) in H. simpl in H.
    destruct (requests_get w t (news_request_of env topic)) as [pe | r].
    + injection H as <-. right. right. exists pe. reflexivity.
    + destruct (Z.eq_dec (status_code r) 200) as [Hs | Hs].
      * destruct e as [code detail | pe].
        -- destruct (after_response_200_no_HTTPException r _ code detail Hs H).
        -- right. right. exists pe. reflexivity.
      * rewrite (after_response_not_200 r _ Hs) in H. simpl in H.
        injection H as <-. right. left. exists (text r). reflexivity.
  - rewrite (get_recent_news_no_key env w topic t K) in H. simpl in H.
    apply Raise_inj in H. left. symmetry. exact H.
Qed.

Lemma generate_content_no_key env w topic t :
  truthy (env_value (OPENAI_API_KEY env)) = false ->
  generate_content env w topic t
  = (Raise (ConfigurationError (U "OPENAI_API_KEY")), t).
Proof.
  intro K. unfold generate_content, ConfigurationError.
  rewrite K, <- OPENAI_API_KEY_detail. reflexivity.
Qed.

(** With the key: the news fetch outside the [try], the three completions
    inside it. *)
Lemma generate_content_with_key env w topic t :
  truthy (env_value (OPENAI_API_KEY env)) = true ->
  generate_content env w topic t
  = match get_recent_news env w topic t with
    | (Raise e, t') => (Raise e, t')
    | (Return recent_news, t') =>
      match generate_content_try w topic recent_news t' with
      | (Return c, t'') => (Return c, t'')
      | (Raise exc, t'') => (Raise (GenerationError (format_exc exc)), t'')
      end
    end.
Proof.
  intro K. unfold generate_content. rewrite K.
  change (negb true) with false. cbv iota.
  unfold bind, try_except, raise, GenerationError.
  destruct (get_recent_news env w topic t) as [[recent_news | e] t'];
    reflexivity.
Qed.

(** No [HTTPException] reaches the handler of the [try] block. *)
Lemma try_body_raises_no_HTTPException w topic recent_news t exc :
  fst (generate_content_try w topic recent_news t) = Raise exc ->
  exists pe, exc = Exception pe.
Proof.
  rewrite generate_content_try_run. cbv zeta.
  repeat match goal with
         | |- context [match completion_result ?o with _ => _ end] =>
           destruct (completion_result o) as [pe | ?]
         end; simpl; intro H; try discriminate H;
    injection H as <-; exists pe; reflexivity.
Qed.

(** The generation error differs from the errors of the news layer. *)
Lemma GenerationError_not_ConfigurationError cause :
  GenerationError cause <> ConfigurationError (U "CURRENTS_API_KEY").
Proof.
  unfold ConfigurationError, GenerationError. intro H.
  injection H as H. vm_compute in H. discriminate H.
Qed.

Lemma GenerationError_not_NewsFetchError cause body :
  GenerationError cause <> NewsFetchError body.
Proof.
  unfold NewsFetchError, GenerationError. intro H.
  injection H as H. vm_compute in H. discriminate H.
Qed.

Lemma no_ChatCall_in evs req out :
  filter is_ChatCall evs = [] -> ~ In (ChatCall req out) evs.
Proof.
  intros Hf Hin.
  assert (H : In (ChatCall req out) (filter is_ChatCall evs))
    by (apply filter_In; split; [ exact Hin | reflexivity ]).
  rewrite Hf in H. exact H.
Qed.

Ltac chat_event_cases Hin Hfail :=
  repeat (destruct Hin as [Hin | Hin];
          [ injection Hin as _ Hin; subst;
            unfold completion_failure in Hfail
          | ]);
  try contradiction.

(** A failed completion call ends the run with the generation error that
    carries the text of the failure. *)
Lemma generate_content_failure_result env w topic t evs req out e :
  snd (generate_content env w topic t) = t ++ evs ->
  In (ChatCall req out) evs ->
  completion_failure out = Some e ->
  fst (generate_content env w topic t) = Raise (GenerationError (exc_str e)).
Proof.
  intros Htr Hin Hfail.
  destruct (truthy (env_value (OPENAI_API_KEY env))) eqn:K.
  - rewrite (generate_content_with_key env w topic t K) in *.
    destruct (get_recent_news_events env w topic t) as (nevs & Hn & Hnc).
    destruct (get_recent_news env w topic t) as [[recent_news | e0] t'].
    + simpl in Hn. subst t'.
      pose proof (generate_content_try_run w topic recent_news (t ++ nevs))
        as Hrun. cbv zeta in Hrun. rewrite Hrun in *. clear Hrun.
      destruct (completion_result (ChatCompletion_create w (t ++ nevs) _))
        as [e1 | title] eqn:H1.
      * simpl in *. rewrite <- app_assoc in Htr. apply app_inv_head in Htr.
        subst evs. apply in_app_or in Hin. destruct Hin as [Hin | Hin].
        -- destruct (no_ChatCall_in _ _ _ Hnc Hin).
        -- chat_event_cases Hin Hfail.
           rewrite H1 in Hfail. injection Hfail as <-. reflexivity.
      * destruct (completion_result (ChatCompletion_create w (_ ++ [_]) _))
          as [e2 | meta] eqn:H2.
        -- simpl in *. rewrite <- app_assoc in Htr. apply app_inv_head in Htr.
           subst evs. apply in_app_or in Hin. destruct Hin as [Hin | Hin].
           ++ destruct (no_ChatCall_in _ _ _ Hnc Hin).
           ++ chat_event_cases Hin Hfail.
              ** rewrite H1 in Hfail. discriminate Hfail.
              ** rewrite H2 in Hfail. injection Hfail as <-. reflexivity.
        -- destruct (completion_result
                       (ChatCompletion_create w (_ ++ [_; _]) _))
             as [e3 | post] eqn:H3.
           ++ simpl in *. rewrite <- app_assoc in Htr.
              apply app_inv_head in Htr.
              subst evs. apply in_app_or in Hin. destruct Hin as [Hin | Hin].
              ** destruct (no_ChatCall_in _ _ _ Hnc Hin).
              ** chat_event_cases Hin Hfail.
                 --- rewrite H1 in Hfail. discriminate Hfail.
                 --- rewrite H2 in Hfail. discriminate Hfail.
                 --- rewrite H3 in Hfail. injection Hfail as <-. reflexivity.
           ++ simpl in *. rewrite <- app_assoc in Htr.
              apply app_inv_head in Htr.
              subst evs. apply in_app_or in Hin. destruct Hin as [Hin | Hin].
              ** destruct (no_ChatCall_in _ _ _ Hnc Hin).
              ** chat_event_cases Hin Hfail.
                 --- rewrite H1 in Hfail. discriminate Hfail.
                 --- rewrite H2 in Hfail. discriminate Hfail.
                 --- rewrite H3 in Hfail. discriminate Hfail.
    + simpl in Hn, Htr. rewrite Hn in Htr. apply app_inv_head in Htr.
      subst evs. destruct (no_ChatCall_in _ _ _ Hnc Hin).
  - rewrite (generate_content_no_key env w topic t K) in Htr. simpl in Htr.
    rewrite <- (app_nil_r t) in Htr at 1. apply app_inv_head in Htr.
    subst evs. destruct Hin.
Qed.

Lemma completion_result_text out s :
  completion_result out = inr s ->
  exists completion s0,
    out = inr completion /\ first_text completion = Some s0 /\ s = strip s0.
Proof.
  unfold completion_result, choices0_message_content_strip, first_text.
  destruct out as [e | completion]; [ discriminate | ].
  destruct (choices completion) as [| choice rest] eqn:Hcs; [ discriminate | ].
  destruct (message_content choice) as [s0 |] eqn:Hc; [ | discriminate ].
  intro H. injection H as <-. exists completion, s0.
  rewrite Hcs. repeat split. exact Hc.
Qed.

(* ===================================================================== *)
(** ** Properties of [generate_content] and of POST /generate-post *)
(* ===================================================================== *)

(** C6.  When OPENAI_API_KEY is unset, [generate_content] raises the
    configuration error and the trace is unchanged: neither the news
    endpoint nor the completion endpoint has been called. *)
Theorem generate_content_key_unset env w topic t :
  OPENAI_API_KEY env = None ->
  generate_content env w topic t
  = (Raise (ConfigurationError (U "OPENAI_API_KEY")), t).
Proof.
  intro H. apply generate_content_no_key. rewrite H. reflexivity.
Qed.

Lemma generate_content_key_unset_witness :
  generate_content env_no_openai world_seven_articles (U "спорт") []
  = (Raise (ConfigurationError (U "OPENAI_API_KEY")), []).
Proof.
  apply (generate_content_key_unset env_no_openai world_seven_articles
           (U "спорт") []).
  reflexivity.
Defined.

(** C7.  When the news fetch inside [generate_content] raises, the same
    exception leaves [generate_content], it is no generation error, and
    the run has made no completion call. *)
Theorem generate_content_news_failure env w topic t e :
  truthy (env_value (OPENAI_API_KEY env)) = true ->
  fst (get_recent_news env w topic t) = Raise e ->
  generate_content env w topic t
  = (Raise e, snd (get_recent_news env w topic t))
  /\ (exists evs,
         snd (generate_content env w topic t) = t ++ evs
         /\ filter is_ChatCall evs = [])
  /\ (forall cause, e <> GenerationError cause).
Proof.
  intros K He.
  assert (Hrun : generate_content env w topic t
                 = (Raise e, snd (get_recent_news env w topic t))).
  { rewrite (generate_content_with_key env w topic t K).
    destruct (get_recent_news env w topic t) as [[recent_news | e0] t'];
      simpl in He; [ discriminate He | ].
    injection He as ->. reflexivity. }
  split; [ exact Hrun | split ].
  - rewrite Hrun. simpl. apply get_recent_news_events.
  - intros cause Hc.
    destruct (get_recent_news_raises env w topic t e He)
      as [H | [[body H] | [pe H]]]; rewrite H in Hc.
    + symmetry in Hc. exact (GenerationError_not_ConfigurationError _ Hc).
    + symmetry in Hc. exact (GenerationError_not_NewsFetchError _ _ Hc).
    + discriminate Hc.
Qed.

Lemma generate_content_news_failure_witness :
  generate_content env_both world_503 (U "спорт") []
  = (Raise (NewsFetchError (U "Service Unavailable")),
     snd (get_recent_news env_both world_503 (U "спорт") []))
  /\ (exists evs,
         snd (generate_content env_both world_503 (U "спорт") []) = [] ++ evs
         /\ filter is_ChatCall evs = [])
  /\ (forall cause,
         NewsFetchError (U "Service Unavailable") <> GenerationError cause).
Proof.
  apply (generate_content_news_failure env_both world_503 (U "спорт") []).
  - reflexivity.
  - vm_compute. reflexivity.
Defined.

(** C4.  When one of the completion calls of a run of [generate_content]
    has failed, the run raises one generation error whose detail carries
    the text of the failure; nothing is returned, and the body of the
    response has the detail and none of the three content fields. *)
Theorem generate_content_completion_failure env w topic t evs req out e :
  snd (generate_content env w topic t) = t ++ evs ->
  In (ChatCall req out) evs ->
  completion_failure out = Some e ->
  fst (generate_content env w topic t) = Raise (GenerationError (exc_str e))
  /\ (forall c, fst (generate_content env w topic t) <> Return c)
  /\ body_field (http_boundary (fst (generate_content env w topic t)))
       (U "detail")
     = Some (PyStr (U "Ошибка при генерации контента: " ++ exc_str e))
  /\ body_field (http_boundary (fst (generate_content env w topic t)))
       (U "title") = None
  /\ body_field (http_boundary (fst (generate_content env w topic t)))
       (U "meta_description") = None
  /\ body_field (http_boundary (fst (generate_content env w topic t)))
       (U "post_content") = None.
Proof.
  intros Htr Hin Hfail.
  rewrite (generate_content_failure_result env w topic t evs req out e
             Htr Hin Hfail).
  split; [ reflexivity | ].
  split; [ intros c; discriminate | ].
  unfold GenerationError, http_boundary, body_field, response_body.
  repeat split.
Qed.

Lemma generate_content_completion_failure_witness :
  fst (generate_content env_both world_second_completion_fails (U "спорт") [])
  = Raise (GenerationError (exc_str quota_error))
  /\ (forall c,
         fst (generate_content env_both world_second_completion_fails
                (U "спорт") []) <> Return c)
  /\ body_field
       (http_boundary
          (fst (generate_content env_both world_second_completion_fails
                  (U "спорт") [])))
       (U "detail")
     = Some (PyStr (U "Ошибка при генерации контента: "
                    ++ exc_str quota_error))
  /\ body_field
       (http_boundary
          (fst (generate_content env_both world_second_completion_fails
                  (U "спорт") [])))
       (U "title") = None
  /\ body_field
       (http_boundary
          (fst (generate_content env_both world_second_completion_fails
                  (U "спорт") [])))
       (U "meta_description") = None
  /\ body_field
       (http_boundary
          (fst (generate_content env_both world_second_completion_fails
                  (U "спорт") [])))
       (U "post_content") = None.
Proof.
  apply (generate_content_completion_failure
           env_both world_second_completion_fails (U "спорт") []
           (snd (generate_content env_both world_second_completion_fails
                   (U "спорт") []))
           (meta_description_request (U "Готовый текст"))
           (inl quota_error) quota_error).
  - reflexivity.
  - vm_compute. right. right. left. reflexivity.
  - reflexivity.
Defined.

(** C5, as the code has it.  When [generate_content] returns, the run has
    made the news call and three completion calls that each answered with
    a first choice holding a text, and the three fields are these texts
    with the surrounding whitespace stripped; a field is the empty string
    exactly when its text holds nothing but whitespace. *)
Theorem generate_content_success_fields env w topic t c :
  fst (generate_content env w topic t) = Return c ->
  exists nreq nout req1 c1 req2 c2 req3 c3 s1 s2 s3,
    snd (generate_content env w topic t)
    = t ++ [NewsCall nreq nout; ChatCall req1 (inr c1);
            ChatCall req2 (inr c2); ChatCall req3 (inr c3)]
    /\ first_text c1 = Some s1
    /\ first_text c2 = Some s2
    /\ first_text c3 = Some s3
    /\ title c = strip s1
    /\ meta_description c = strip s2
    /\ post_content c = strip s3
    /\ (title c = [] <-> forallb isspace s1 = true)
    /\ (meta_description c = [] <-> forallb isspace s2 = true)
    /\ (post_content c = [] <-> forallb isspace s3 = true).
Proof.
  intro Hc.
  destruct (truthy (env_value (OPENAI_API_KEY env))) eqn:K;
    [ | rewrite (generate_content_no_key env w topic t K) in Hc;
        discriminate Hc ].
  rewrite (generate_content_with_key env w topic t K) in *.
  destruct (truthy (env_value (CURRENTS_API_KEY env))) eqn:K';
    [ | rewrite (get_recent_news_no_key env w topic t K') in Hc;
        discriminate Hc ].
  pose proof (get_recent_news_with_key env w topic t K') as Hn.
  cbv zeta in Hn. rewrite Hn in *. clear Hn.
  set (nreq := news_request_of env topic) in *.
  set (nout := requests_get w t nreq) in *.
  destruct (match nout with
            | inl e => Raise (Exception e)
            | inr response =>
              fst (after_response response (t ++ [NewsCall nreq nout]))
            end) as [recent_news | e0]; [ | discriminate Hc ].
  pose proof (generate_content_try_run w topic recent_news
                (t ++ [NewsCall nreq nout])) as Hrun.
  cbv zeta in Hrun. rewrite Hrun in *. clear Hrun.
  destruct (completion_result (ChatCompletion_create w (_ ++ [_]) _))
    as [e1 | x1] eqn:H1; [ discriminate Hc | ].
  destruct (completion_result (ChatCompletion_create w ((_ ++ [_]) ++ [_]) _))
    as [e2 | x2] eqn:H2; [ discriminate Hc | ].
  destruct (completion_result
              (ChatCompletion_create w ((_ ++ [_]) ++ [_; _]) _))
    as [e3 | x3] eqn:H3; [ discriminate Hc | ].
  simpl in Hc. injection Hc as <-.
  destruct (completion_result_text _ _ H1) as (c1 & s1 & E1 & F1 & ->).
  destruct (completion_result_text _ _ H2) as (c2 & s2 & E2 & F2 & ->).
  destruct (completion_result_text _ _ H3) as (c3 & s3 & E3 & F3 & ->).
  exists nreq, nout,
    (title_request topic recent_news), c1,
    (meta_description_request (strip s1)), c2,
    (post_content_request topic recent_news), c3, s1, s2, s3.
  simpl. rewrite E1 in E2, E3 |- *. rewrite E2 in E3 |- *. rewrite E3.
  rewrite <- app_assoc. simpl.
  repeat split; try assumption; apply strip_nil.
Qed.

Lemma generate_content_success_fields_witness :
  exists nreq nout req1 c1 req2 c2 req3 c3 s1 s2 s3,
    snd (generate_content env_both world_seven_articles (U "спорт") [])
    = [] ++ [NewsCall nreq nout; ChatCall req1 (inr c1);
             ChatCall req2 (inr c2); ChatCall req3 (inr c3)]
    /\ first_text c1 = Some s1
    /\ first_text c2 = Some s2
    /\ first_text c3 = Some s3
    /\ title ready_content = strip s1
    /\ meta_description ready_content = strip s2
    /\ post_content ready_content = strip s3
    /\ (title ready_content = [] <-> forallb isspace s1 = true)
    /\ (meta_description ready_content = [] <-> forallb isspace s2 = true)
    /\ (post_content ready_content = [] <-> forallb isspace s3 = true).
Proof.
  apply (generate_content_success_fields env_both world_seven_articles
           (U "спорт") [] ready_content).
  vm_compute. reflexivity.
Defined.

(** C5 as stated fails: with completions whose text is empty the run
    succeeds and all three fields are the empty string. *)
Lemma generate_content_empty_fields :
  fst (generate_content env_both world_empty_completions (U "спорт") [])
  = Return {| title := []; meta_description := []; post_content := [] |}.
Proof. vm_compute. reflexivity. Qed.

(** What [generate_content] can raise. *)
Lemma generate_content_raises env w topic t e :
  fst (generate_content env w topic t) = Raise e ->
  (exists name, e = ConfigurationError name)
  \/ (exists body, e = NewsFetchError body)
  \/ (exists cause, e = GenerationError cause)
  \/ (exists pe, e = Exception pe).
Proof.
  intro He.
  destruct (truthy (env_value (OPENAI_API_KEY env))) eqn:K.
  - rewrite (generate_content_with_key env w topic t K) in He.
    destruct (get_recent_news env w topic t) as [[recent_news | e0] t'] eqn:Hn.
    + destruct (generate_content_try w topic recent_news t')
        as [[c | exc] t'']; simpl in He; [ discriminate He | ].
      injection He as <-. right. right. left.
      exists (format_exc exc). reflexivity.
    + simpl in He. injection He as ->.
      assert (H : fst (get_recent_news env w topic t) = Raise e)
        by (rewrite Hn; reflexivity).
      destruct (get_recent_news_raises env w topic t e H)
        as [-> | [[body ->] | [pe ->]]].
      * left. eexists. reflexivity.
      * right. left. exists body. reflexivity.
      * right. right. right. exists pe. reflexivity.
  - rewrite (generate_content_no_key env w topic t K) in He. simpl in He.
    apply Raise_inj in He. left. exists (U "OPENAI_API_KEY").
    symmetry. exact He.
Qed.

(** C9.  Whenever POST /generate-post fails, the response has status 500.
    Every [HTTPException] that leaves the handler is a configuration
    error, a news-fetch error or a generation error; its status code is
    500 and the response body is its detail string under "detail". *)
Theorem generate_post_api_failure_500 env w tp t e :
  fst (generate_post_api env w tp t) = Raise e ->
  response_status (http_boundary (fst (generate_post_api env w tp t))) = 500%Z
  /\ (forall code detail,
         e = HTTPException code detail ->
         code = 500%Z
         /\ response_body (http_boundary (fst (generate_post_api env w tp t)))
            = PyDict [ (U "detail", PyStr detail) ]
         /\ ((exists name, e = ConfigurationError name)
             \/ (exists body, e = NewsFetchError body)
             \/ (exists cause, e = GenerationError cause))).
Proof.
  unfold generate_post_api. intro He. rewrite He.
  destruct (generate_content_raises env w (topic tp) t e He)
    as [[name ->] | [[body ->] | [[cause ->] | [pe ->]]]].
  - split; [ reflexivity | ].
    intros code detail H. injection H as <- <-.
    repeat split. left. exists name. reflexivity.
  - split; [ reflexivity | ].
    intros code detail H. injection H as <- <-.
    repeat split. right. left. exists body. reflexivity.
  - split; [ reflexivity | ].
    intros code detail H. injection H as <- <-.
    repeat split. right. right. exists cause. reflexivity.
  - split; [ reflexivity | ].
    intros code detail H. discriminate H.
Qed.

Lemma generate_post_api_failure_500_witness :
  response_status
    (http_boundary
       (fst (generate_post_api env_both world_second_completion_fails
               sport_topic []))) = 500%Z
  /\ (forall code detail,
         GenerationError (exc_str quota_error) = HTTPException code detail ->
         code = 500%Z
         /\ response_body
              (http_boundary
                 (fst (generate_post_api env_both
                         world_second_completion_fails sport_topic [])))
            = PyDict [ (U "detail", PyStr detail) ]
         /\ ((exists name,
                 GenerationError (exc_str quota_error)
                 = ConfigurationError name)
             \/ (exists body,
                    GenerationError (exc_str quota_error)
                    = NewsFetchError body)
             \/ (exists cause,
                    GenerationError (exc_str quota_error)
                    = GenerationError cause))).
Proof.
  apply (generate_post_api_failure_500 env_both
           world_second_completion_fails sport_topic []
           (GenerationError (exc_str quota_error))).
  vm_compute. reflexivity.
Defined.

(* ===================================================================== *)
(** ** Further properties of [get_recent_news] *)
(* ===================================================================== *)

(** X1.  A run of [get_recent_news] with the key set makes exactly one
    outbound call, whatever comes back: a GET to the fixed address with the
    language "ru", the topic as it is under "keywords" and the key under
    "apiKey".  Without the key it makes none. *)
Theorem get_recent_news_one_call env w topic t :
  snd (get_recent_news env w topic t)
  = t ++ (if truthy (env_value (CURRENTS_API_KEY env))
          then
            [ NewsCall
                {| url := U "https://api.currentsapi.services/v1/latest-news";
                   params :=
                     [ (U "language", PyStr (U "ru"));
                       (U "keywords", PyStr topic);
                       (U "apiKey", env_value (CURRENTS_API_KEY env)) ] |}
                (requests_get w t (news_request_of env topic)) ]
          else []).
Proof.
  destruct (truthy (env_value (CURRENTS_API_KEY env))) eqn:K.
  - rewrite (get_recent_news_with_key env w topic t K). reflexivity.
  - rewrite (get_recent_news_no_key env w topic t K). simpl.
    rewrite app_nil_r. reflexivity.
Qed.

(** X2.  An empty CURRENTS_API_KEY counts as unset: the configuration
    error is raised and nothing is sent. *)
Theorem get_recent_news_empty_key env w topic t :
  CURRENTS_API_KEY env = Some [] ->
  get_recent_news env w topic t
  = (Raise (ConfigurationError (U "CURRENTS_API_KEY")), t).
Proof.
  intro H. apply get_recent_news_no_key. rewrite H. reflexivity.
Qed.

Lemma get_recent_news_empty_key_witness :
  get_recent_news env_empty_keys world_seven_articles (U "спорт") []
  = (Raise (ConfigurationError (U "CURRENTS_API_KEY")), []).
Proof.
  apply (get_recent_news_empty_key env_empty_keys world_seven_articles
           (U "спорт") []).
  reflexivity.
Defined.

(** X5.  With status 200 and a body that is not JSON, the exception of
    [response.json()] leaves [get_recent_news] as it is. *)
Theorem get_recent_news_body_not_json env w topic t req r pe :
  snd (get_recent_news env w topic t) = t ++ [NewsCall req (inr r)] ->
  status_code r = 200%Z ->
  json r = inl pe ->
  fst (get_recent_news env w topic t) = Raise (Exception pe).
Proof.
  intros Htr Hs Hj.
  rewrite (get_recent_news_answered env w topic t req r Htr).
  unfold after_response. rewrite Hs.
  change (negb (200 =? 200)%Z) with false. cbv iota.
  unfold bind, lift, raise. rewrite Hj. reflexivity.
Qed.

Lemma get_recent_news_body_not_json_witness :
  fst (get_recent_news env_both world_html_200 (U "спорт") [])
  = Raise (Exception
             (PyErr "JSONDecodeError"
                (U "Expecting value: line 1 column 1 (char 0)"))).
Proof.
  apply (get_recent_news_body_not_json env_both world_html_200 (U "спорт") []
           (news_request_of env_both (U "спорт")) response_html_200).
  - vm_compute. reflexivity.
  - reflexivity.
  - reflexivity.
Defined.

(** X6.  With status 200 and a JSON body that is not an object (a list, a
    string, a number, null), [get_recent_news] raises the AttributeError
    of the missing method [get]. *)
Theorem get_recent_news_body_not_object env w topic t req r body :
  snd (get_recent_news env w topic t) = t ++ [NewsCall req (inr r)] ->
  status_code r = 200%Z ->
  json r = inr body ->
  (forall d, body <> PyDict d) ->
  fst (get_recent_news env w topic t)
  = Raise (Exception
             (AttributeError
                (U "'" ++ U (type_name body)
                 ++ U "' object has no attribute 'get'"))).
Proof.
  intros Htr Hs Hj Hd.
  rewrite (get_recent_news_answered env w topic t req r Htr).
  unfold after_response. rewrite Hs.
  change (negb (200 =? 200)%Z) with false. cbv iota.
  unfold bind, lift, raise, ret. rewrite Hj.
  destruct body; try reflexivity.
  destruct (Hd d). reflexivity.
Qed.

Lemma get_recent_news_body_not_object_witness :
  fst (get_recent_news env_both world_list_body (U "спорт") [])
  = Raise (Exception
             (AttributeError
                (U "'" ++ U (type_name (PyList []))
                 ++ U "' object has no attribute 'get'"))).
Proof.
  apply (get_recent_news_body_not_object env_both world_list_body
           (U "спорт") []
           (news_request_of env_both (U "спорт")) response_list_body).
  - vm_compute. reflexivity.
  - reflexivity.
  - reflexivity.
  - intros d H. discriminate H.
Defined.

(** X7.  With status 200 and a JSON object whose "news" is any falsy value
    (null, false, 0, 0.0, an empty string, list or object), the fixed
    message is returned. *)
Theorem get_recent_news_falsy_news env w topic t req r d v :
  snd (get_recent_news env w topic t) = t ++ [NewsCall req (inr r)] ->
  status_code r = 200%Z ->
  json r = inr (PyDict d) ->
  dict_lookup d (U "news") = Some v ->
  truthy v = false ->
  fst (get_recent_news env w topic t)
  = Return (U "Свежих новостей не найдено.").
Proof.
  intros Htr Hs Hj Hd Hv.
  rewrite (get_recent_news_answered env w topic t req r Htr).
  rewrite (after_response_falsy r _ (PyDict d) v Hs Hj).
  - reflexivity.
  - unfold py_get. rewrite Hd. reflexivity.
  - exact Hv.
Qed.

Lemma get_recent_news_falsy_news_witness :
  fst (get_recent_news env_both world_null_news (U "спорт") [])
  = Return (U "Свежих новостей не найдено.").
Proof.
  apply (get_recent_news_falsy_news env_both world_null_news (U "спорт") []
           (news_request_of env_both (U "спорт")) response_null_news
           [ (U "news", PyNone) ] PyNone).
  - vm_compute. reflexivity.
  - reflexivity.
  - reflexivity.
  - vm_compute. reflexivity.
  - reflexivity.
Defined.

Lemma Return_inj {A : Type} (a b : A) : Return a = Return b -> a = b.
Proof. intro H. injection H as H. exact H. Qed.

Lemma collect_expect_titles articles : forall values i titles,
  collect (fun a => getitem a (U "title")) articles = inr values ->
  expect_strs i values = inr titles ->
  map article_title articles = map Some titles.
Proof.
  induction articles as [| a articles IH]; intros values i titles Hc He.
  - simpl in Hc. injection Hc as <-. simpl in He. injection He as <-.
    reflexivity.
  - simpl in Hc.
    destruct (getitem a (U "title")) as [e | v] eqn:Hg; [ discriminate Hc | ].
    destruct (collect _ articles) as [e | vs] eqn:Hvs; [ discriminate Hc | ].
    injection Hc as <-. simpl in He.
    destruct v; try discriminate He.
    destruct (expect_strs (S i) vs) as [e | ss] eqn:Hss; [ discriminate He | ].
    injection He as <-. simpl.
    rewrite (IH vs (S i) ss eq_refl Hss). f_equal.
    unfold getitem in Hg. unfold article_title.
    destruct a; try discriminate Hg.
    destruct (dict_lookup d (U "title")) as [v |]; [ | discriminate Hg ].
    injection Hg as ->. reflexivity.
Qed.

(** Iterating over a non-empty string gives strings, which have no item
    "title". *)
Lemma collect_over_str c s n :
  collect (fun a => getitem a (U "title"))
    (map (fun c => PyStr [c]) (firstn (S n) (c :: s)))
  = inl (TypeError (U "string indices must be integers")).
Proof. reflexivity. Qed.

(** X8.  Whenever [get_recent_news] returns a string, the endpoint has
    answered with status 200 and a JSON object, and the string is either
    the fixed message, for a falsy "news", or the titles of the first five
    entries of a non-empty "news" list, all five being objects with a
    string title, joined by line breaks.  Nothing else is ever returned. *)
Theorem get_recent_news_returns env w topic t s :
  fst (get_recent_news env w topic t) = Return s ->
  exists r d,
    snd (get_recent_news env w topic t)
    = t ++ [NewsCall (news_request_of env topic) (inr r)]
    /\ status_code r = 200%Z
    /\ json r = inr (PyDict d)
    /\ ((s = U "Свежих новостей не найдено."
         /\ truthy (match dict_lookup d (U "news") with
                    | Some v => v
                    | None => PyList []
                    end) = false)
        \/ (exists articles titles,
               dict_lookup d (U "news") = Some (PyList articles)
               /\ articles <> []
               /\ map article_title (firstn 5 articles) = map Some titles
               /\ s = join NL titles)).
Proof.
  intro H.
  destruct (truthy (env_value (CURRENTS_API_KEY env))) eqn:K;
    [ | rewrite (get_recent_news_no_key env w topic t K) in H;
        discriminate H ].
  pose proof (get_recent_news_with_key env w topic t K) as Hrun.
  cbv zeta in Hrun. rewrite Hrun in *. clear Hrun. simpl in *.
  destruct (requests_get w t (news_request_of env topic)) as [pe | r];
    [ discriminate H | ].
  destruct (Z.eq_dec (status_code r) 200) as [Hs | Hs];
    [ | rewrite (after_response_not_200 r _ Hs) in H; discriminate H ].
  destruct (json r) as [pe | body] eqn:Hj.
  { unfold after_response in H. rewrite Hs, Hj in H. discriminate H. }
  destruct body as [| b | n | f | s0 | l | d];
    try (unfold after_response in H; rewrite Hs, Hj in H; discriminate H).
  exists r, d. repeat split; try assumption.
  assert (Hg : py_get (PyDict d) (U "news") (PyList [])
               = inr (match dict_lookup d (U "news") with
                      | Some v => v
                      | None => PyList []
                      end)) by reflexivity.
  destruct (truthy (match dict_lookup d (U "news") with
                    | Some v => v
                    | None => PyList []
                    end)) eqn:Hv.
  - right.
    rewrite (after_response_truthy r _ _ _ Hs Hj Hg Hv) in H. simpl in H.
    destruct (dict_lookup d (U "news")) as [v |]; [ | discriminate Hv ].
    destruct v as [| b | n | f | s0 | l | d0];
      try discriminate Hv; try discriminate H.
    + destruct s0 as [| c s0]; [ discriminate Hv | ].
      unfold slice5 in H. rewrite collect_over_str in H. discriminate H.
    + exists l. unfold slice5 in H.
      destruct (collect _ (firstn 5 l)) as [e | values] eqn:Hc;
        [ discriminate H | ].
      unfold py_join in H.
      destruct (expect_strs 0 values) as [e | titles] eqn:He;
        [ discriminate H | ].
      apply Return_inj in H. subst s. exists titles. repeat split.
      * intros ->. discriminate Hv.
      * exact (collect_expect_titles _ _ _ _ Hc He).
  - left. rewrite (after_response_falsy r _ _ _ Hs Hj Hg Hv) in H.
    simpl in H. apply Return_inj in H. subst s. split; reflexivity.
Qed.

Lemma get_recent_news_returns_witness :
  exists r d,
    snd (get_recent_news env_both world_bad_sixth (U "спорт") [])
    = [] ++ [NewsCall (news_request_of env_both (U "спорт")) (inr r)]
    /\ status_code r = 200%Z
    /\ json r = inr (PyDict d)
    /\ ((join NL (firstn 5 seven_titles) = U "Свежих новостей не найдено."
         /\ truthy (match dict_lookup d (U "news") with
                    | Some v => v
                    | None => PyList []
                    end) = false)
        \/ (exists articles titles,
               dict_lookup d (U "news") = Some (PyList articles)
               /\ articles <> []
               /\ map article_title (firstn 5 articles) = map Some titles
               /\ join NL (firstn 5 seven_titles) = join NL titles)).
Proof.
  apply (get_recent_news_returns env_both world_bad_sixth (U "спорт") []
           (join NL (firstn 5 seven_titles))).
  vm_compute. reflexivity.
Defined.

Lemma firstn_S_nil {A : Type} (n : nat) (l : list A) :
  firstn (S n) l = [] -> l = [].
Proof. destruct l; [ reflexivity | discriminate ]. Qed.

(** X9.  Entries of "news" after the fifth are never looked at: two
    answers with status 200 whose "news" lists agree on their first five
    entries give the same result, be it a string or an exception. *)
Theorem get_recent_news_first_five_only
  env w topic t req r d l env' w' topic' t' req' r' d' l' :
  snd (get_recent_news env w topic t) = t ++ [NewsCall req (inr r)] ->
  status_code r = 200%Z ->
  json r = inr (PyDict d) ->
  dict_lookup d (U "news") = Some (PyList l) ->
  snd (get_recent_news env' w' topic' t') = t' ++ [NewsCall req' (inr r')] ->
  status_code r' = 200%Z ->
  json r' = inr (PyDict d') ->
  dict_lookup d' (U "news") = Some (PyList l') ->
  firstn 5 l = firstn 5 l' ->
  fst (get_recent_news env w topic t)
  = fst (get_recent_news env' w' topic' t').
Proof.
  intros Htr Hs Hj Hd Htr' Hs' Hj' Hd' Hl.
  rewrite (get_recent_news_answered env w topic t req r Htr).
  rewrite (get_recent_news_answered env' w' topic' t' req' r' Htr').
  assert (Hg : py_get (PyDict d) (U "news") (PyList []) = inr (PyList l))
    by (unfold py_get; rewrite Hd; reflexivity).
  assert (Hg' : py_get (PyDict d') (U "news") (PyList []) = inr (PyList l'))
    by (unfold py_get; rewrite Hd'; reflexivity).
  destruct l as [| a l].
  - symmetry in Hl. apply firstn_S_nil in Hl. subst l'.
    rewrite (after_response_falsy r _ _ _ Hs Hj Hg eq_refl).
    rewrite (after_response_falsy r' _ _ _ Hs' Hj' Hg' eq_refl).
    reflexivity.
  - destruct l' as [| a' l']; [ discriminate Hl | ].
    rewrite (after_response_truthy r _ _ _ Hs Hj Hg eq_refl).
    rewrite (after_response_truthy r' _ _ _ Hs' Hj' Hg' eq_refl).
    unfold slice5. rewrite Hl. reflexivity.
Qed.

Lemma get_recent_news_first_five_only_witness :
  fst (get_recent_news env_both world_seven_articles (U "спорт") [])
  = fst (get_recent_news env_both world_bad_sixth (U "спорт") []).
Proof.
  apply (get_recent_news_first_five_only
           env_both world_seven_articles (U "спорт") []
           (news_request_of env_both (U "спорт")) response_seven_articles
           [ (U "news", PyList (map article seven_titles)) ]
           (map article seven_titles)
           env_both world_bad_sixth (U "спорт") []
           (news_request_of env_both (U "спорт")) response_bad_sixth
           [ (U "news",
              PyList (map article (firstn 5 seven_titles)
                      ++ [ PyNone; PyInt 7 ])) ]
           (map article (firstn 5 seven_titles) ++ [ PyNone; PyInt 7 ]));
    vm_compute; reflexivity.
Defined.

(* ===================================================================== *)
(** ** Further properties of [generate_content] *)
(* ===================================================================== *)

Lemma lstrip_lstrip s : lstrip (lstrip s) = lstrip s.
Proof.
  induction s as [| c s IH]; simpl; [ reflexivity | ].
  destruct (isspace c) eqn:Hc; [ exact IH | ].
  simpl. rewrite Hc. reflexivity.
Qed.

Lemma lstrip_snoc x c :
  isspace c = false -> exists z, lstrip (x ++ [c]) = z ++ [c].
Proof.
  intro Hc. induction x as [| y x IH]; simpl.
  - rewrite Hc. exists []. reflexivity.
  - destruct (isspace y).
    + exact IH.
    + exists (y :: x). reflexivity.
Qed.

Lemma rstrip_head c r :
  isspace c = false -> exists r', rstrip (c :: r) = c :: r'.
Proof.
  intro Hc. unfold rstrip. simpl.
  destruct (lstrip_snoc (rev r) c Hc) as [z Hz]. rewrite Hz.
  rewrite rev_app_distr. simpl. exists (rev z). reflexivity.
Qed.

Lemma rstrip_rstrip s : rstrip (rstrip s) = rstrip s.
Proof.
  unfold rstrip. rewrite rev_involutive, lstrip_lstrip. reflexivity.
Qed.

(** Stripping twice is stripping once. *)
Lemma strip_strip s : strip (strip s) = strip s.
Proof.
  unfold strip.
  destruct (lstrip s) as [| c r] eqn:Hl; [ reflexivity | ].
  pose proof (lstrip_head s c r Hl) as Hc.
  destruct (rstrip_head c r Hc) as [r' Hr]. rewrite Hr.
  simpl. rewrite Hc. rewrite <- Hr. apply rstrip_rstrip.
Qed.

Lemma split_one {A : Type} (pre post : list A) (x a : A) :
  pre ++ x :: post = [a] -> post = [].
Proof.
  destruct pre as [| p pre]; simpl; intro H.
  - injection H as _ H. exact H.
  - injection H as _ H. destruct pre; discriminate H.
Qed.

Lemma split_two {A : Type} (pre post : list A) (x a b : A) :
  pre ++ x :: post = [a; b] -> post <> [] -> x = a.
Proof.
  destruct pre as [| p pre]; simpl; intros H Hp.
  - injection H as H _. exact H.
  - injection H as _ H. apply split_one in H. contradiction.
Qed.

Lemma split_three {A : Type} (pre post : list A) (x a b c : A) :
  pre ++ x :: post = [a; b; c] -> post <> [] -> x = a \/ x = b.
Proof.
  destruct pre as [| p pre]; simpl; intros H Hp.
  - injection H as H _. left. exact H.
  - injection H as _ H. right. exact (split_two _ _ _ _ _ H Hp).
Qed.

(** The completion calls of the [try] block: at most three, and each one
    that is followed by another has succeeded. *)
Lemma generate_content_try_events w topic recent_news t :
  exists o1 chats,
    snd (generate_content_try w topic recent_news t)
    = t ++ ChatCall (title_request topic recent_news) o1 :: chats
    /\ forallb is_ChatCall chats = true
    /\ (List.length chats <= 2)%nat
    /\ (forall pre req out post,
           ChatCall (title_request topic recent_news) o1 :: chats
           = pre ++ ChatCall req out :: post ->
           post <> [] -> completion_failure out = None).
Proof.
  rewrite generate_content_try_run. cbv zeta.
  destruct (completion_result
              (ChatCompletion_create w t (title_request topic recent_news)))
    as [e1 | x1] eqn:H1.
  - eexists. exists [].
    split; [ reflexivity | split; [ reflexivity | split; [ simpl; lia | ] ] ].
    intros pre req out post H Hp. symmetry in H.
    apply split_one in H. contradiction.
  - destruct (completion_result (ChatCompletion_create w (t ++ [_]) _))
      as [e2 | x2] eqn:H2.
    + eexists. eexists.
      split; [ reflexivity | split; [ reflexivity | split; [ simpl; lia | ] ] ].
      intros pre req out post H Hp. symmetry in H.
      apply split_two in H; [ | exact Hp ].
      injection H as _ ->. unfold completion_failure. rewrite H1.
      reflexivity.
    + assert (Hshape : forall pre req out post,
                 [ChatCall (title_request topic recent_news)
                     (ChatCompletion_create w t
                        (title_request topic recent_news));
                  ChatCall (meta_description_request x1)
                     (ChatCompletion_create w
                        (t ++ [ChatCall (title_request topic recent_news)
                                 (ChatCompletion_create w t
                                    (title_request topic recent_news))])
                        (meta_description_request x1));
                  ChatCall (post_content_request topic recent_news)
                     (ChatCompletion_create w
                        (t ++ [ChatCall (title_request topic recent_news)
                                 (ChatCompletion_create w t
                                    (title_request topic recent_news));
                               ChatCall (meta_description_request x1)
                                 (ChatCompletion_create w
                                    (t ++ [ChatCall
                                             (title_request topic recent_news)
                                             (ChatCompletion_create w t
                                                (title_request topic
                                                   recent_news))])
                                    (meta_description_request x1))])
                        (post_content_request topic recent_news))]
                 = pre ++ ChatCall req out :: post ->
                 post <> [] -> completion_failure out = None).
      { intros pre req out post H Hp. symmetry in H.
        apply split_three in H; [ | exact Hp ].
        destruct H as [H | H]; injection H as _ ->;
          unfold completion_failure; [ rewrite H1 | rewrite H2 ];
          reflexivity. }
      destruct (completion_result
                  (ChatCompletion_create w (t ++ [_; _]) _)) as [e3 | x3];
        (eexists; eexists;
         split; [ reflexivity
                | split; [ reflexivity | split; [ simpl; lia | exact Hshape ] ] ]).
Qed.

(** The outbound calls of a run of [generate_content]: none, or the call
    to the news endpoint followed by at most three completion calls, of
    which only the last can have failed. *)
Lemma generate_content_events env w topic t :
  exists evs,
    snd (generate_content env w topic t) = t ++ evs
    /\ (evs = []
        \/ exists nout chats,
            evs = NewsCall (news_request_of env topic) nout :: chats
            /\ (List.length chats <= 3)%nat
            /\ forallb is_ChatCall chats = true
            /\ (forall pre req out post,
                   chats = pre ++ ChatCall req out :: post ->
                   post <> [] -> completion_failure out = None)).
Proof.
  destruct (truthy (env_value (OPENAI_API_KEY env))) eqn:K.
  - rewrite (generate_content_with_key env w topic t K).
    destruct (truthy (env_value (CURRENTS_API_KEY env))) eqn:K'.
    + pose proof (get_recent_news_with_key env w topic t K') as Hn.
      cbv zeta in Hn. rewrite Hn. clear Hn.
      set (nreq := news_request_of env topic).
      set (nout := requests_get w t nreq).
      destruct (match nout with
                | inl e => Raise (Exception e)
                | inr response =>
                  fst (after_response response (t ++ [NewsCall nreq nout]))
                end) as [recent_news | e0].
      * destruct (generate_content_try_events w topic recent_news
                    (t ++ [NewsCall nreq nout]))
          as (o1 & chats & Htr & Hf & Hl & Hs).
        exists (NewsCall nreq nout
                :: ChatCall (title_request topic recent_news) o1 :: chats).
        split.
        -- destruct (generate_content_try w topic recent_news
                       (t ++ [NewsCall nreq nout])) as [[c | exc] t''];
             simpl in Htr; subst t''; simpl; rewrite <- app_assoc;
             reflexivity.
        -- right. exists nout. eexists. split; [ reflexivity | ].
           split; [ simpl; lia | ]. split; [ exact Hf | exact Hs ].
      * exists [NewsCall nreq nout]. split; [ reflexivity | ].
        right. exists nout, []. split; [ reflexivity | ].
        split; [ simpl; lia | ]. split; [ reflexivity | ].
        intros pre req out post H. destruct pre; discriminate H.
    + rewrite (get_recent_news_no_key env w topic t K').
      exists []. split; [ simpl; rewrite app_nil_r; reflexivity | ].
      left. reflexivity.
  - rewrite (generate_content_no_key env w topic t K).
    exists []. split; [ simpl; rewrite app_nil_r; reflexivity | ].
    left. reflexivity.
Qed.

(** What a successful run of [generate_content] has done. *)
Lemma generate_content_success_run env w topic t c :
  fst (generate_content env w topic t) = Return c ->
  exists recent_news nout o1 o2 o3,
    get_recent_news env w topic t
    = (Return recent_news,
       t ++ [NewsCall (news_request_of env topic) nout])
    /\ snd (generate_content env w topic t)
       = t ++ [NewsCall (news_request_of env topic) nout;
               ChatCall (title_request topic recent_news) o1;
               ChatCall (meta_description_request (title c)) o2;
               ChatCall (post_content_request topic recent_news) o3]
    /\ completion_result o1 = inr (title c)
    /\ completion_result o2 = inr (meta_description c)
    /\ completion_result o3 = inr (post_content c).
Proof.
  intro Hc.
  destruct (truthy (env_value (OPENAI_API_KEY env))) eqn:K;
    [ | rewrite (generate_content_no_key env w topic t K) in Hc;
        discriminate Hc ].
  rewrite (generate_content_with_key env w topic t K) in *.
  destruct (truthy (env_value (CURRENTS_API_KEY env))) eqn:K';
    [ | rewrite (get_recent_news_no_key env w topic t K') in Hc;
        discriminate Hc ].
  pose proof (get_recent_news_with_key env w topic t K') as Hn.
  cbv zeta in Hn. rewrite Hn in *. clear Hn.
  set (nreq := news_request_of env topic) in *.
  set (nout := requests_get w t nreq) in *.
  destruct (match nout with
            | inl e => Raise (Exception e)
            | inr response =>
              fst (after_response response (t ++ [NewsCall nreq nout]))
            end) as [recent_news | e0]; [ | discriminate Hc ].
  pose proof (generate_content_try_run w topic recent_news
                (t ++ [NewsCall nreq nout])) as Hrun.
  cbv zeta in Hrun. rewrite Hrun in *. clear Hrun.
  destruct (completion_result (ChatCompletion_create w (_ ++ [_]) _))
    as [e1 | x1] eqn:H1; [ discriminate Hc | ].
  destruct (completion_result (ChatCompletion_create w ((_ ++ [_]) ++ [_]) _))
    as [e2 | x2] eqn:H2; [ discriminate Hc | ].
  destruct (completion_result
              (ChatCompletion_create w ((_ ++ [_]) ++ [_; _]) _))
    as [e3 | x3] eqn:H3; [ discriminate Hc | ].
  simpl in Hc. apply Return_inj in Hc. subst c.
  exists recent_news, nout. eexists. eexists. eexists.
  split; [ reflexivity | ].
  split; [ simpl; rewrite <- app_assoc; reflexivity | ].
  simpl. split; [ exact H1 | split; [ exact H2 | exact H3 ] ].
Qed.

(** X3.  An empty OPENAI_API_KEY counts as unset: the configuration error
    is raised and no outbound call is made. *)
Theorem generate_content_empty_key env w topic t :
  OPENAI_API_KEY env = Some [] ->
  generate_content env w topic t
  = (Raise (ConfigurationError (U "OPENAI_API_KEY")), t).
Proof.
  intro H. apply generate_content_no_key. rewrite H. reflexivity.
Qed.

Lemma generate_content_empty_key_witness :
  generate_content env_empty_keys world_seven_articles (U "спорт") []
  = (Raise (ConfigurationError (U "OPENAI_API_KEY")), []).
Proof.
  apply (generate_content_empty_key env_empty_keys world_seven_articles
           (U "спорт") []).
  reflexivity.
Defined.

(** X4.  When [requests.get] itself raises (the endpoint cannot be
    reached), its exception leaves [get_recent_news] and
    [generate_content] as it is, no [HTTPException] is made of it, and no
    completion call follows. *)
Theorem generate_content_network_failure env w topic t pe :
  truthy (env_value (OPENAI_API_KEY env)) = true ->
  truthy (env_value (CURRENTS_API_KEY env)) = true ->
  requests_get w t (news_request_of env topic) = inl pe ->
  get_recent_news env w topic t
  = (Raise (Exception pe),
     t ++ [NewsCall (news_request_of env topic) (inl pe)])
  /\ generate_content env w topic t
     = (Raise (Exception pe),
        t ++ [NewsCall (news_request_of env topic) (inl pe)]).
Proof.
  intros K K' Hout.
  assert (Hn : get_recent_news env w topic t
               = (Raise (Exception pe),
                  t ++ [NewsCall (news_request_of env topic) (inl pe)])).
  { pose proof (get_recent_news_with_key env w topic t K') as Hn.
    cbv zeta in Hn. rewrite Hn, Hout. reflexivity. }
  split; [ exact Hn | ].
  rewrite (generate_content_with_key env w topic t K), Hn. reflexivity.
Qed.

Lemma generate_content_network_failure_witness :
  get_recent_news env_both world_network_down (U "спорт") []
  = (Raise (Exception connection_error),
     [] ++ [NewsCall (news_request_of env_both (U "спорт"))
              (inl connection_error)])
  /\ generate_content env_both world_network_down (U "спорт") []
     = (Raise (Exception connection_error),
        [] ++ [NewsCall (news_request_of env_both (U "спорт"))
                 (inl connection_error)]).
Proof.
  apply (generate_content_network_failure env_both world_network_down
           (U "спорт") [] connection_error); reflexivity.
Defined.

(** X10.  A run of [generate_content] only appends to the trace, and what
    it appends is nothing, or one call to the news endpoint followed by at
    most three calls to the completion endpoint: never a completion call
    before the news call, never a second news call. *)
Theorem generate_content_calls env w topic t :
  exists evs,
    snd (generate_content env w topic t) = t ++ evs
    /\ (evs = []
        \/ exists nout chats,
            evs = NewsCall (news_request_of env topic) nout :: chats
            /\ (List.length chats <= 3)%nat
            /\ forallb is_ChatCall chats = true).
Proof.
  destruct (generate_content_events env w topic t) as (evs & Htr & H).
  exists evs. split; [ exact Htr | ].
  destruct H as [H | (nout & chats & He & Hl & Hf & _)].
  - left. exact H.
  - right. exists nout, chats. repeat split; assumption.
Qed.

(** X11.  On success the four calls are chained as the source writes them:
    the digest returned by [get_recent_news] goes into the prompts of the
    first and the third completion, and the title of the result is what
    the prompt of the second completion is built from. *)
Theorem generate_content_success_requests env w topic t c :
  fst (generate_content env w topic t) = Return c ->
  exists recent_news nout o1 o2 o3,
    fst (get_recent_news env w topic t) = Return recent_news
    /\ snd (generate_content env w topic t)
       = t ++ [NewsCall (news_request_of env topic) nout;
               ChatCall (title_request topic recent_news) o1;
               ChatCall (meta_description_request (title c)) o2;
               ChatCall (post_content_request topic recent_news) o3].
Proof.
  intro Hc.
  destruct (generate_content_success_run env w topic t c Hc)
    as (recent_news & nout & o1 & o2 & o3 & Hn & Htr & _).
  exists recent_news, nout, o1, o2, o3.
  split; [ rewrite Hn; reflexivity | exact Htr ].
Qed.

Lemma generate_content_success_requests_witness :
  exists recent_news nout o1 o2 o3,
    fst (get_recent_news env_both world_seven_articles (U "спорт") [])
    = Return recent_news
    /\ snd (generate_content env_both world_seven_articles (U "спорт") [])
       = [] ++ [NewsCall (news_request_of env_both (U "спорт")) nout;
                ChatCall (title_request (U "спорт") recent_news) o1;
                ChatCall (meta_description_request (title ready_content)) o2;
                ChatCall (post_content_request (U "спорт") recent_news) o3].
Proof.
  apply (generate_content_success_requests env_both world_seven_articles
           (U "спорт") [] ready_content).
  vm_compute. reflexivity.
Defined.

(** X12.  A failed completion call is the last outbound call of the run:
    the remaining completions are not attempted. *)
Theorem generate_content_stops_at_failure env w topic t pre req out post e :
  snd (generate_content env w topic t) = t ++ pre ++ ChatCall req out :: post ->
  completion_failure out = Some e ->
  post = [].
Proof.
  intros Htr Hfail.
  destruct (generate_content_events env w topic t) as (evs & Hevs & H).
  rewrite Hevs in Htr. apply app_inv_head in Htr. subst evs.
  destruct H as [H | (nout & chats & He & _ & _ & Hs)].
  - destruct pre; discriminate H.
  - destruct pre as [| p pre]; [ discriminate He | ].
    simpl in He. injection He as _ He.
    destruct post as [| q post]; [ reflexivity | ].
    assert (Hnone : completion_failure out = None).
    { apply (Hs pre req out (q :: post)); [ symmetry; exact He | ].
      discriminate. }
    rewrite Hnone in Hfail. discriminate Hfail.
Qed.

Lemma generate_content_stops_at_failure_witness :
  @nil event = [].
Proof.
  apply (generate_content_stops_at_failure env_both
           world_second_completion_fails (U "спорт") []
           [ NewsCall (news_request_of env_both (U "спорт"))
               (inr response_seven_articles);
             ChatCall (title_request (U "спорт")
                         (join NL (firstn 5 seven_titles)))
               good_completion ]
           (meta_description_request (U "Готовый текст"))
           (inl quota_error) [] quota_error).
  - vm_compute. reflexivity.
  - reflexivity.
Defined.

(** X13.  Whatever digest [get_recent_news] returns, the message that no
    news was found included, generation goes on: the first completion call
    is made with the title prompt built from the topic and that digest. *)
Theorem generate_content_uses_digest env w topic t recent_news :
  truthy (env_value (OPENAI_API_KEY env)) = true ->
  fst (get_recent_news env w topic t) = Return recent_news ->
  exists nout o1 rest,
    snd (generate_content env w topic t)
    = t ++ NewsCall (news_request_of env topic) nout
        :: ChatCall (title_request topic recent_news) o1 :: rest.
Proof.
  intros K Hn.
  rewrite (generate_content_with_key env w topic t K).
  destruct (truthy (env_value (CURRENTS_API_KEY env))) eqn:K';
    [ | rewrite (get_recent_news_no_key env w topic t K') in Hn;
        discriminate Hn ].
  pose proof (get_recent_news_with_key env w topic t K') as Hrun.
  cbv zeta in Hrun. rewrite Hrun in *. clear Hrun. simpl in Hn.
  rewrite Hn.
  destruct (generate_content_try_events w topic recent_news
              (t ++ [NewsCall (news_request_of env topic)
                       (requests_get w t (news_request_of env topic))]))
    as (o1 & chats & Htr & _).
  exists (requests_get w t (news_request_of env topic)), o1, chats.
  destruct (generate_content_try w topic recent_news _) as [[c | exc] t''];
    simpl in Htr; subst t''; simpl; rewrite <- app_assoc; reflexivity.
Qed.

Lemma generate_content_uses_digest_witness :
  exists nout o1 rest,
    snd (generate_content env_both world_no_articles (U "спорт") [])
    = [] ++ NewsCall (news_request_of env_both (U "спорт")) nout
        :: ChatCall (title_request (U "спорт")
                       (U "Свежих новостей не найдено.")) o1 :: rest.
Proof.
  apply (generate_content_uses_digest env_both world_no_articles
           (U "спорт") [] (U "Свежих новостей не найдено.")).
  - reflexivity.
  - vm_compute. reflexivity.
Defined.

(** X14.  With OPENAI_API_KEY set and CURRENTS_API_KEY unset or empty,
    [generate_content] raises the configuration error that names
    CURRENTS_API_KEY, and no outbound call is made. *)
Theorem generate_content_news_key_unset env w topic t :
  truthy (env_value (OPENAI_API_KEY env)) = true ->
  truthy (env_value (CURRENTS_API_KEY env)) = false ->
  generate_content env w topic t
  = (Raise (ConfigurationError (U "CURRENTS_API_KEY")), t).
Proof.
  intros K K'.
  rewrite (generate_content_with_key env w topic t K).
  rewrite (get_recent_news_no_key env w topic t K'). reflexivity.
Qed.

Lemma generate_content_news_key_unset_witness :
  generate_content env_no_currents world_seven_articles (U "спорт") []
  = (Raise (ConfigurationError (U "CURRENTS_API_KEY")), []).
Proof.
  apply (generate_content_news_key_unset env_no_currents
           world_seven_articles (U "спорт") []); reflexivity.
Defined.

(** X15.  The three fields of a result never begin or end with a
    whitespace character: stripping them again changes nothing. *)
Theorem generate_content_fields_stripped env w topic t c :
  fst (generate_content env w topic t) = Return c ->
  strip (title c) = title c
  /\ strip (meta_description c) = meta_description c
  /\ strip (post_content c) = post_content c.
Proof.
  intro Hc.
  destruct (generate_content_success_run env w topic t c Hc)
    as (recent_news & nout & o1 & o2 & o3 & _ & _ & H1 & H2 & H3).
  destruct (completion_result_text _ _ H1) as (c1 & s1 & _ & _ & ->).
  destruct (completion_result_text _ _ H2) as (c2 & s2 & _ & _ & ->).
  destruct (completion_result_text _ _ H3) as (c3 & s3 & _ & _ & ->).
  repeat split; apply strip_strip.
Qed.

Lemma generate_content_fields_stripped_witness :
  strip (title ready_content) = title ready_content
  /\ strip (meta_description ready_content) = meta_description ready_content
  /\ strip (post_content ready_content) = post_content ready_content.
Proof.
  apply (generate_content_fields_stripped env_both world_seven_articles
           (U "спорт") [] ready_content).
  vm_compute. reflexivity.
Defined.

(* ===================================================================== *)
(** ** The entry point *)
(* ===================================================================== *)

Lemma missing_eq env :
  missing env
  = (if truthy (env_value (OPENAI_API_KEY env))
     then [] else [ U "OPENAI_API_KEY" ])
    ++ (if truthy (env_value (CURRENTS_API_KEY env))
        then [] else [ U "CURRENTS_API_KEY" ]).
Proof.
  unfold missing. cbn [filter map fst snd].
  destruct (truthy (env_value (OPENAI_API_KEY env)));
    destruct (truthy (env_value (CURRENTS_API_KEY env))); reflexivity.
Qed.

Lemma main_started_keys int_of_str env PORT srv :
  main int_of_str env PORT = inr srv ->
  truthy (env_value (OPENAI_API_KEY env)) = true
  /\ truthy (env_value (CURRENTS_API_KEY env)) = true.
Proof.
  unfold main. rewrite missing_eq.
  destruct (truthy (env_value (OPENAI_API_KEY env)));
    destruct (truthy (env_value (CURRENTS_API_KEY env)));
    cbn [List.app]; intro H; try discriminate H.
  split; reflexivity.
Qed.

Lemma GenerationError_not_any_ConfigurationError cause name :
  GenerationError cause <> ConfigurationError name.
Proof.
  unfold ConfigurationError, GenerationError. intro H.
  injection H as H. vm_compute in H. discriminate H.
Qed.

(** X16.  When one of the two keys is unset or empty, the [__main__] block
    raises a RuntimeError before it reads PORT or starts the server; the
    message lists the names of exactly the missing variables,
    OPENAI_API_KEY first, separated by ", ". *)
Theorem main_aborts_naming_missing int_of_str env PORT :
  truthy (env_value (OPENAI_API_KEY env)) = false
  \/ truthy (env_value (CURRENTS_API_KEY env)) = false ->
  main int_of_str env PORT
  = inl (RuntimeError
           (U "Перед запуском задайте переменные окружения: "
            ++ join (U ", ")
                 ((if truthy (env_value (OPENAI_API_KEY env))
                   then [] else [ U "OPENAI_API_KEY" ])
                  ++ (if truthy (env_value (CURRENTS_API_KEY env))
                      then [] else [ U "CURRENTS_API_KEY" ])))).
Proof.
  intro H. unfold main. rewrite missing_eq.
  destruct (truthy (env_value (OPENAI_API_KEY env)));
    destruct (truthy (env_value (CURRENTS_API_KEY env)));
    try reflexivity.
  destruct H as [H | H]; discriminate H.
Qed.

Lemma main_aborts_naming_missing_witness :
  main no_int env_no_keys (Some (U "8080"))
  = inl (RuntimeError
           (U "Перед запуском задайте переменные окружения: "
            ++ join (U ", ")
                 ((if truthy (env_value (OPENAI_API_KEY env_no_keys))
                   then [] else [ U "OPENAI_API_KEY" ])
                  ++ (if truthy (env_value (CURRENTS_API_KEY env_no_keys))
                      then [] else [ U "CURRENTS_API_KEY" ])))).
Proof.
  apply (main_aborts_naming_missing no_int env_no_keys (Some (U "8080"))).
  left. reflexivity.
Defined.

(** X17.  When the [__main__] block gets as far as starting the server,
    no request can fail for a missing key: neither [get_recent_news] nor
    [generate_content] ever raises a configuration error. *)
Theorem main_started_no_configuration_error
  int_of_str env PORT srv w topic t name :
  main int_of_str env PORT = inr srv ->
  fst (get_recent_news env w topic t) <> Raise (ConfigurationError name)
  /\ fst (generate_content env w topic t) <> Raise (ConfigurationError name).
Proof.
  intros Hmain.
  destruct (main_started_keys _ _ _ _ Hmain) as [K K'].
  assert (Hn : forall name0,
             fst (get_recent_news env w topic t)
             <> Raise (ConfigurationError name0)).
  { intros name0 H.
    pose proof (get_recent_news_with_key env w topic t K') as Hrun.
    cbv zeta in Hrun. rewrite Hrun in H. clear Hrun. simpl in H.
    destruct (requests_get w t (news_request_of env topic)) as [pe | r];
      [ discriminate H | ].
    destruct (Z.eq_dec (status_code r) 200) as [Hs | Hs].
    - exact (after_response_200_no_HTTPException r _ _ _ Hs H).
    - rewrite (after_response_not_200 r _ Hs) in H. simpl in H.
      apply Raise_inj in H. symmetry in H.
      exact (ConfigurationError_not_NewsFetchError _ _ H). }
  split; [ apply Hn | ].
  rewrite (generate_content_with_key env w topic t K).
  destruct (get_recent_news env w topic t) as [[recent_news | e0] t'].
  - destruct (generate_content_try w topic recent_news t')
      as [[c | exc] t'']; simpl; [ discriminate | ].
    intro H. apply Raise_inj in H.
    exact (GenerationError_not_any_ConfigurationError _ _ H).
  - simpl. simpl in Hn. intro H. apply Raise_inj in H.
    apply (Hn name). rewrite H. reflexivity.
Qed.

Lemma main_started_no_configuration_error_witness :
  fst (get_recent_news env_both world_503 (U "спорт") [])
  <> Raise (ConfigurationError (U "CURRENTS_API_KEY"))
  /\ fst (generate_content env_both world_503 (U "спорт") [])
     <> Raise (ConfigurationError (U "CURRENTS_API_KEY")).
Proof.
  apply (main_started_no_configuration_error no_int env_both None
           {| application := U "app:app"; host := U "0.0.0.0"; port := 8000 |}
           world_503 (U "спорт") [] (U "CURRENTS_API_KEY")).
  vm_compute. reflexivity.
Defined.
